(** * Shoe inventory manager ([inventory_final.py]): model and properties

    The program keeps a process-wide list of [Shoe] records, loads it from
    and rewrites it to the text file [inventory.txt], and drives capture,
    restock and search from lines typed at the console.

    Modelling choices.
    - Text is a list of characters ([list ascii]).  The model covers ASCII
      text: a character code of 128 or more is treated as neither white
      space, nor a digit, nor a cased letter.
    - The integer type is [Z] (Python integers are unbounded; the limit of
      recent Python versions on the number of digits that [int] and [str]
      convert is not modelled).  The float type is IEEE binary64, as the
      Standard Library's [spec_float].
    - The global [shoe_list], the content of [inventory.txt] and what was
      printed so far form one record [world], passed explicitly.  What is
      printed is kept as a list of messages, one constructor for each
      [print] of the source, rather than as formatted text.
    - Each call of [input()] is a suspension point: an interactive
      operation is a step function from the phase it waits in and the line
      it receives to its next phase, run over the list of lines that the
      console will deliver.
    - The file system is reliable: [inventory.txt] can always be opened
      for writing and a present file can always be read, so the [IOError]
      handlers of the source (lines 109, 127) and the handler of line 129
      have no counterpart.
    - The reports ([view_all], [value_per_item], [highest_qty]) and the
      menu loop change neither the collection nor the file; they are not
      modelled. *)

From Stdlib Require Import ZArith Ascii String List Bool Lia.
From Stdlib Require Import SpecFloat.
From stdpp Require Import base strings list.
Import ListNotations.
Local Open Scope Z_scope.

(** ** Text *)

Abbreviation text := (list ascii).

(** A string literal as a [text]. *)
Definition txt (s : string) : text := list_ascii_of_string s.

Definition code_of (c : ascii) : Z := Z.of_N (N_of_ascii c).

Definition newline : ascii := "010"%char.
Definition comma : ascii := ","%char.
Definition underscore : ascii := "_"%char.

Definition is_char (a c : ascii) : bool := code_of c =? code_of a.

(** [str.isspace] on one character, as [str.strip()] uses it: tab, line
    feed, vertical tab, form feed, carriage return, the four separators
    28 to 31, and the space. *)
Definition isspace (c : ascii) : bool :=
  let n := code_of c in
  ((9 <=? n) && (n <=? 13)) || ((28 <=? n) && (n <=? 32)).

(** The white space that [int()] and [float()] skip around a literal
    (the C locale's: 9 to 13 and the space). *)
Definition c_isspace (c : ascii) : bool :=
  let n := code_of c in
  ((9 <=? n) && (n <=? 13)) || (n =? 32).

(** [str.upper()] and [str.lower()] on ASCII text. *)
Definition upper_char (c : ascii) : ascii :=
  let n := code_of c in
  if (97 <=? n) && (n <=? 122) then ascii_of_N (Z.to_N (n - 32)) else c.

Definition lower_char (c : ascii) : ascii :=
  let n := code_of c in
  if (65 <=? n) && (n <=? 90) then ascii_of_N (Z.to_N (n + 32)) else c.

Definition upper (s : text) : text := map upper_char s.
Definition lower (s : text) : text := map lower_char s.

(** [s.strip()], for a given notion of white space. *)
Fixpoint lstrip_with (sp : ascii -> bool) (s : text) : text :=
  match s with
  | [] => []
  | c :: s' => if sp c then lstrip_with sp s' else s
  end.

Definition rstrip_with (sp : ascii -> bool) (s : text) : text :=
  rev (lstrip_with sp (rev s)).

Definition strip_with (sp : ascii -> bool) (s : text) : text :=
  rstrip_with sp (lstrip_with sp s).

Definition strip (s : text) : text := strip_with isspace s.

(** [s.split(sep)] for a one-character separator: never the empty list. *)
Fixpoint split (sep : ascii) (s : text) : list text :=
  match s with
  | [] => [[]]
  | c :: s' =>
      if is_char sep c then [] :: split sep s'
      else match split sep s' with
           | f :: fs => (c :: f) :: fs
           | [] => [[c]]
           end
  end.

(** The lines a text file yields when iterated: each keeps its line feed,
    and a last line without one is yielded when it is not empty.  (The
    translation of a lone carriage return into a line feed, which Python's
    text mode also does, is not modelled.) *)
Fixpoint lines (s : text) : list text :=
  match s with
  | [] => []
  | c :: s' =>
      if is_char newline c then [c] :: lines s'
      else match lines s' with
           | l :: ls => (c :: l) :: ls
           | [] => [[c]]
           end
  end.

Definition text_eqb (a b : text) : bool := bool_decide (a = b).

(** ** Integers: [int(str)] and [str(int)] *)

Definition digit_of (c : ascii) : option Z :=
  let n := code_of c in
  if (48 <=? n) && (n <=? 57) then Some (n - 48) else None.

Definition digit_char (d : Z) : ascii := ascii_of_N (Z.to_N (48 + d)).

(** The digits after the first one: an underscore may stand between two
    digits and nowhere else. *)
Fixpoint int_digits (acc : Z) (s : text) : option Z :=
  match s with
  | [] => Some acc
  | c :: s' =>
      if is_char underscore c then
        match s' with
        | d :: s'' =>
            match digit_of d with
            | Some v => int_digits (acc * 10 + v) s''
            | None => None
            end
        | [] => None
        end
      else
        match digit_of c with
        | Some v => int_digits (acc * 10 + v) s'
        | None => None
        end
  end.

Definition int_body (s : text) : option Z :=
  match s with
  | [] => None
  | c :: s' =>
      match digit_of c with
      | Some v => int_digits v s'
      | None => None
      end
  end.

(** [int(s)] for a [str] in base 10; [None] stands for [ValueError]. *)
Definition py_int (s : text) : option Z :=
  match strip_with c_isspace s with
  | c :: b =>
      if is_char "-"%char c then option_map Z.opp (int_body b)
      else if is_char "+"%char c then int_body b
      else int_body (c :: b)
  | [] => None
  end.

(** The decimal digits of a natural number, most significant first;
    [fuel] bounds the number of digits after the first. *)
Fixpoint digits_of (fuel : nat) (n : Z) (acc : text) : text :=
  let acc' := digit_char (n mod 10) :: acc in
  match fuel with
  | O => acc'
  | S f => if n <? 10 then acc' else digits_of f (n / 10) acc'
  end.

Definition str_of_nat (n : Z) : text := digits_of (Z.to_nat (Z.log2 n)) n [].

(** [str(n)] for an [int]. *)
Definition str_of_int (z : Z) : text :=
  if z <? 0 then "-"%char :: str_of_nat (- z) else str_of_nat z.


(** ** Floats: [float(str)], [repr(float)] and comparison

    A Python [float] is an IEEE binary64 number.  [float(s)] reads a
    decimal literal and rounds it to the nearest binary64 (ties to even);
    formatting a float with an empty format, as the f-string of
    [to_file_string] does, gives [repr]: the shortest decimal text that
    reads back as the same float. *)

Abbreviation float := spec_float.

Definition prec : Z := 53.
Definition emax : Z := 1024.

Definition float_zero : float := S754_zero false.

(** [a == b] and [a >= 0] on floats: both are false on NaN. *)
Definition float_eqb (a b : float) : bool := SFeqb a b.
Definition float_ge0 (a : float) : bool := SFleb float_zero a.


(** The binary64 nearest to [d * 10^k], for [d >= 0]. *)
Definition round_decimal (neg : bool) (d k : Z) : float :=
  match d with
  | Zpos _ =>
      if 0 <=? k then binary_round prec emax neg (Z.to_pos (d * 10 ^ k)) 0
      else
        let '(q, e, l) := SFdiv_core_binary prec emax d 0 (10 ^ (- k)) 0 in
        binary_round_aux prec emax neg q e l
  | _ => S754_zero neg
  end.

Definition is_digit (c : ascii) : bool :=
  match digit_of c with Some _ => true | None => false end.

(** Underscores in a float literal: each one stands between two digits. *)
Fixpoint underscores_ok (prev : option ascii) (s : text) : bool :=
  match s with
  | [] => match prev with
          | Some p => negb (is_char underscore p)
          | None => true
          end
  | c :: s' =>
      (if is_char underscore c
       then match prev with Some p => is_digit p | None => false end
       else match prev with
            | Some p => if is_char underscore p then is_digit c else true
            | None => true
            end)
      && underscores_ok (Some c) s'
  end.

Definition drop_underscores (s : text) : text :=
  List.filter (fun c => negb (is_char underscore c)) s.

(** The longest prefix of digits, as a number and a count, and the rest. *)
Fixpoint take_digits (acc : Z) (n : Z) (s : text) : Z * Z * text :=
  match s with
  | c :: s' =>
      match digit_of c with
      | Some v => take_digits (acc * 10 + v) (n + 1) s'
      | None => (acc, n, s)
      end
  | [] => (acc, n, s)
  end.

(** The exponent part of a literal: nothing, or [e], a sign and digits. *)
Definition float_exponent (s : text) : option Z :=
  match s with
  | [] => Some 0
  | c :: s' =>
      if is_char "e"%char (lower_char c) then
        let '(neg, s'') :=
          match s' with
          | g :: r => if is_char "-"%char g then (true, r)
                      else if is_char "+"%char g then (false, r)
                      else (false, s')
          | [] => (false, s')
          end in
        match take_digits 0 0 s'' with
        | (x, n, []) => if 0 <? n then Some (if neg then - x else x) else None
        | _ => None
        end
      else None
  end.

(** An unsigned decimal literal: digits, an optional point and more
    digits (one digit at least in all), an optional exponent. *)
Definition float_decimal (neg : bool) (s : text) : option float :=
  let '(ip, ni, r1) := take_digits 0 0 s in
  let '(d, nf, r2) :=
    match r1 with
    | c :: r => if is_char "."%char c then
                  let '(d, nf, r2) := take_digits ip 0 r in (d, nf, r2)
                else (ip, 0, r1)
    | [] => (ip, 0, r1)
    end in
  if 0 <? ni + nf then
    match float_exponent r2 with
    | Some x => Some (round_decimal neg d (x - nf))
    | None => None
    end
  else None.

Definition float_unsigned (neg : bool) (s : text) : option float :=
  let l := lower s in
  if text_eqb l (txt "inf") || text_eqb l (txt "infinity")
  then Some (S754_infinity neg)
  else if text_eqb l (txt "nan") then Some S754_nan
  else float_decimal neg s.

(** [float(s)] for a [str]; [None] stands for [ValueError]. *)
Definition py_float (s : text) : option float :=
  if underscores_ok None s then
    match strip_with c_isspace (drop_underscores s) with
    | c :: b =>
        if is_char "-"%char c then float_unsigned true b
        else if is_char "+"%char c then float_unsigned false b
        else float_unsigned false (c :: b)
    | [] => None
    end
  else None.

(** *** Shortest decimal text of a float *)

(** The decimal point position of [num/den > 0]: the [p] with
    [10^(p-1) <= num/den < 10^p]. *)
Fixpoint decpt_up (fuel : nat) (num den p : Z) : Z :=
  match fuel with
  | O => p
  | S f => if num <? den * 10 ^ p then p else decpt_up f num den (p + 1)
  end.

Fixpoint decpt_down (fuel : nat) (num den p : Z) : Z :=
  match fuel with
  | O => p
  | S f => if num * 10 ^ (1 - p) <? den then decpt_down f num den (p - 1) else p
  end.

Definition decpt_of (num den : Z) : Z :=
  if den <=? num then decpt_up 400 num den 1 else decpt_down 400 num den 0.

Definition same_float (a b : float) : bool :=
  match a, b with
  | S754_zero s, S754_zero s' => Bool.eqb s s'
  | S754_infinity s, S754_infinity s' => Bool.eqb s s'
  | S754_nan, S754_nan => true
  | S754_finite s m e, S754_finite s' m' e' =>
      Bool.eqb s s' && (Z.pos m =? Z.pos m') && (e =? e')
  | _, _ => false
  end.

(** With [n] significant digits, the two decimals [q * 10^(p-n)] and
    [(q+1) * 10^(p-n)] around [num/den]; the one that reads back as [x],
    the nearer one when both do. *)
Definition digits_at (x : float) (num den p : Z) (n : Z) : option Z :=
  let s := n - p in
  let nn := if 0 <=? s then num * 10 ^ s else num in
  let dd := if 0 <=? s then den else den * 10 ^ (- s) in
  let q := nn / dd in
  let r := nn mod dd in
  let lo := same_float (round_decimal false q (- s)) x in
  let hi := same_float (round_decimal false (q + 1) (- s)) x in
  if r =? 0 then (if lo then Some q else None)
  else if lo && hi then
    (if 2 * r <? dd then Some q
     else if dd <? 2 * r then Some (q + 1)
     else if Z.even q then Some q else Some (q + 1))
  else if lo then Some q
  else if hi then Some (q + 1)
  else None.

Fixpoint shortest_digits (fuel : nat) (x : float) (num den p n : Z) : Z * Z :=
  match fuel with
  | O => (num * 10 ^ (n - p) / den, n)
  | S f =>
      match digits_at x num den p n with
      | Some d => (d, n)
      | None => shortest_digits f x num den p (n + 1)
      end
  end.

(** The digits of [d] without its trailing zeros. *)
Fixpoint drop_zeros (fuel : nat) (d : Z) : Z :=
  match fuel with
  | O => d
  | S f => if (d mod 10 =? 0) && (0 <? d) then drop_zeros f (d / 10) else d
  end.

Definition zeros (n : Z) : text := repeat "0"%char (Z.to_nat n).

Definition pad2 (s : text) : text :=
  match s with [c] => ["0"%char; c] | _ => s end.

(** The layout of [repr]: digits [ds] with the decimal point after the
    first [decpt] of them; exponent notation when [decpt] is below [-3]
    or above [16]. *)
Definition float_layout (ds : text) (decpt : Z) : text :=
  let k := Z.of_nat (length ds) in
  if (decpt <=? -4) || (16 <? decpt) then
    let e := decpt - 1 in
    firstn 1 ds
    ++ (if 1 <? k then "."%char :: skipn 1 ds else [])
    ++ ["e"%char; if e <? 0 then "-"%char else "+"%char]
    ++ pad2 (str_of_nat (Z.abs e))
  else if decpt <=? 0 then txt "0." ++ zeros (- decpt) ++ ds
  else if k <=? decpt then ds ++ zeros (decpt - k) ++ txt ".0"
  else firstn (Z.to_nat decpt) ds ++ "."%char :: skipn (Z.to_nat decpt) ds.

Definition float_repr_finite (x : float) (m : positive) (e : Z) : text :=
  let num := if 0 <=? e then Z.pos m * 2 ^ e else Z.pos m in
  let den := if 0 <=? e then 1 else 2 ^ (- e) in
  let p := decpt_of num den in
  let '(d, n) := shortest_digits 17 x num den p 1 in
  let full := str_of_nat d in
  let decpt := p + (Z.of_nat (length full) - n) in
  float_layout (str_of_nat (drop_zeros 20 d)) decpt.

(** [repr(x)], which is also [str(x)] and [format(x, "")]. *)
Definition float_repr (x : float) : text :=
  match x with
  | S754_nan => txt "nan"
  | S754_infinity s => if s then txt "-inf" else txt "inf"
  | S754_zero s => if s then txt "-0.0" else txt "0.0"
  | S754_finite s m e =>
      (if s then ["-"%char] else []) ++ float_repr_finite (S754_finite false m e) m e
  end.


(** ** The record type: class [Shoe] *)

Record Shoe := mkShoe {
  country : text;
  code : text;
  product : text;
  cost : float;
  quantity : Z
}.

(** ** What the program prints, and the state it runs in *)

Inductive exn := StopIteration | FileNotFoundError.

Inductive prompt :=
  | EnterCountry                            (* line 141 *)
  | EnterCode                               (* line 147 *)
  | EnterProduct                            (* line 158 *)
  | EnterCost                               (* line 165 *)
  | EnterQuantity                           (* line 176 *)
  | AddStockFor (product code : text)       (* line 239 *)
  | QuantityToAdd (current : Z)             (* line 245 *)
  | EnterSearchCode.                        (* line 277 *)

Inductive output :=
  | InvalidCost (cost code : text)          (* line 26 *)
  | InvalidQuantity (quantity code : text)  (* line 33 *)
  | SkippingMalformed (line : text)         (* line 92 *)
  | Loaded (n : nat)                        (* line 101 *)
  | FileWasNotFound                         (* line 103 *)
  | FileCreated                             (* line 108 *)
  | UnexpectedReadError (e : exn)           (* line 112 *)
  | CaptureBanner                           (* line 139 *)
  | Ask (p : prompt)
  | CountryEmpty                            (* line 144 *)
  | CodeEmpty                               (* line 149 *)
  | CodeExists (code : text)                (* line 153 *)
  | ProductEmpty                            (* line 161 *)
  | CostNegative                            (* line 170 *)
  | CostInvalid                             (* line 172 *)
  | QuantityNegative                        (* line 181 *)
  | QuantityInvalid                         (* line 183 *)
  | Added (product code : text)             (* line 188 *)
  | RestockEmpty                            (* line 223 *)
  | LowestStock (s : Shoe)                  (* lines 233-236 *)
  | StockUpdated (code : text) (q : Z)      (* line 251 *)
  | AmountNegative                          (* line 258 *)
  | AmountInvalid                           (* line 260 *)
  | NoChanges                               (* line 262 *)
  | YesNoInvalid                            (* line 265 *)
  | SearchEmpty                             (* line 274 *)
  | ShoeFound (s : Shoe)                    (* lines 286-289 *)
  | ShoeNotFound (code : text).             (* line 291 *)

(** The messages about a data line of the file: the two coercion notices
    of [Shoe.__init__] and the notice of a skipped line. *)
Definition is_warning (o : output) : bool :=
  match o with
  | InvalidCost _ _ | InvalidQuantity _ _ | SkippingMalformed _ => true
  | _ => false
  end.

Record world := mkWorld {
  shoe_list : list Shoe;            (* the global [shoe_list] *)
  inventory_file : option text;     (* [inventory.txt]; [None]: no such file *)
  stdout : list output              (* printed so far, oldest first *)
}.

Definition print (o : list output) (w : world) : world :=
  mkWorld (shoe_list w) (inventory_file w) (stdout w ++ o).

Definition set_shoes (l : list Shoe) (w : world) : world :=
  mkWorld l (inventory_file w) (stdout w).

Definition set_file (f : text) (w : world) : world :=
  mkWorld (shoe_list w) (Some f) (stdout w).

(** ** [Shoe.__init__] and [Shoe.to_file_string] *)

(** The constructor receives the cost and the quantity either as text
    (from a line of the file) or as a number already (from capture);
    [float] and [int] leave a number as it is. *)
Definition Shoe_init (country code product : text)
    (cost : text + float) (quantity : text + Z) : Shoe * list output :=
  let '(c, o1) :=
    match cost with
    | inr f => (f, [])
    | inl s => match py_float s with
               | Some f => (f, [])
               | None => (float_zero, [InvalidCost s code])
               end
    end in
  let '(q, o2) :=
    match quantity with
    | inr z => (z, [])
    | inl s => match py_int s with
               | Some z => (z, [])
               | None => (0, [InvalidQuantity s code])
               end
    end in
  (mkShoe country code product c q, o1 ++ o2).

Definition to_file_string (s : Shoe) : text :=
  country s ++ comma :: code s ++ comma :: product s ++ comma ::
  float_repr (cost s) ++ comma :: str_of_int (quantity s).

(** ** [read_shoes_data] and [write_shoes_data] *)

Definition header_line : text :=
  txt "Country,Code,Product,Cost,Quantity" ++ [newline].

(** The body of the [for] loop, lines 83 to 100.  The two inner handlers
    are never entered: [Shoe.__init__] catches the [ValueError] of
    [float] and [int] itself. *)
Definition load_line (w : world) (line : text) : world :=
  match split comma (strip line) with
  | [co; cd; pr; cs; qt] =>
      let '(s, o) := Shoe_init co cd pr (inl cs) (inl qt) in
      print o (set_shoes (shoe_list w ++ [s]) w)
  | _ => print [SkippingMalformed (strip line)] w
  end.

(** The [try] block, lines 79 to 101: an exception carries the state in
    which it was raised. *)
Definition read_try (w : world) : exn * world + world :=
  match inventory_file w with
  | None => inl (FileNotFoundError, w)
  | Some content =>
      match lines content with
      | [] => inl (StopIteration, w)
      | _ :: data =>
          let w' := fold_left load_line data w in
          inr (print [Loaded (length (shoe_list w'))] w')
      end
  end.

Definition read_shoes_data (w : world) : world :=
  match read_try (set_shoes [] w) with
  | inr w' => w'
  | inl (FileNotFoundError, w') =>
      print [FileCreated] (set_file header_line (print [FileWasNotFound] w'))
  | inl (e, w') => print [UnexpectedReadError e] w'
  end.

Definition file_text (l : list Shoe) : text :=
  header_line ++ concat (map (fun s => to_file_string s ++ [newline]) l).

Definition write_shoes_data (w : world) : world :=
  set_file (file_text (shoe_list w)) w.

(** ** Interactive operations *)

(** How a run over the typed lines ends: the operation returns, leaving
    the lines it did not read, or [input()] finds no line and raises
    [EOFError], which nothing catches. *)
Inductive result :=
  | Returned (w : world) (unread : list text)
  | EndOfInput (w : world).

Section Run.
Context {phase : Type}.
Variable step : phase -> world -> text -> option phase * world.

Fixpoint run (ph : phase) (w : world) (ins : list text) : result :=
  match ins with
  | [] => EndOfInput w
  | x :: ins' =>
      match step ph w x with
      | (Some ph', w') => run ph' w' ins'
      | (None, w') => Returned w' ins'
      end
  end.

End Run.

(** *** [capture_shoes] *)

Inductive capture_phase :=
  | AtCountry
  | AtCode (country : text)
  | AtProduct (country code : text)
  | AtCost (country code product : text)
  | AtQuantity (country code product : text) (cost : float).

Definition code_exists (l : list Shoe) (c : text) : bool :=
  existsb (fun shoe => text_eqb (code shoe) c) l.

Definition is_empty (s : text) : bool :=
  match s with [] => true | _ => false end.

Definition capture_step (ph : capture_phase) (w : world) (line : text)
    : option capture_phase * world :=
  match ph with
  | AtCountry =>
      let country := strip line in
      if is_empty country
      then (Some AtCountry, print [CountryEmpty; Ask EnterCountry] w)
      else (Some (AtCode country), print [Ask EnterCode] w)
  | AtCode country =>
      let code := upper (strip line) in
      if is_empty code
      then (Some ph, print [CodeEmpty; Ask EnterCode] w)
      else if code_exists (shoe_list w) code
      then (Some ph, print [CodeExists code; Ask EnterCode] w)
      else (Some (AtProduct country code), print [Ask EnterProduct] w)
  | AtProduct country code =>
      let product := strip line in
      if is_empty product
      then (Some ph, print [ProductEmpty; Ask EnterProduct] w)
      else (Some (AtCost country code product), print [Ask EnterCost] w)
  | AtCost country code product =>
      match py_float (strip line) with
      | Some cost =>
          if float_ge0 cost
          then (Some (AtQuantity country code product cost),
                print [Ask EnterQuantity] w)
          else (Some ph, print [CostNegative; Ask EnterCost] w)
      | None => (Some ph, print [CostInvalid; Ask EnterCost] w)
      end
  | AtQuantity country code product cost =>
      match py_int (strip line) with
      | Some quantity =>
          if 0 <=? quantity then
            let '(new_shoe, o) :=
              Shoe_init country code product (inr cost) (inr quantity) in
            let w1 := set_shoes (shoe_list w ++ [new_shoe]) (print o w) in
            (None, write_shoes_data (print [Added product code] w1))
          else (Some ph, print [QuantityNegative; Ask EnterQuantity] w)
      | None => (Some ph, print [QuantityInvalid; Ask EnterQuantity] w)
      end
  end.

Definition capture_shoes (w : world) (ins : list text) : result :=
  run capture_step AtCountry (print [CaptureBanner; Ask EnterCountry] w) ins.

(** *** [re_stock] *)

(** [min(shoe_list, key=lambda shoe: shoe.quantity)], with the position
    of the item it returns: the scan keeps the first item and replaces it
    when the key of a later one is strictly smaller. *)
Fixpoint min_scan (best : nat * Shoe) (i : nat) (l : list Shoe) : nat * Shoe :=
  match l with
  | [] => best
  | s :: l' =>
      if quantity s <? quantity (snd best) then min_scan (i, s) (S i) l'
      else min_scan best (S i) l'
  end.

Definition min_shoe (l : list Shoe) : option (nat * Shoe) :=
  match l with
  | [] => None
  | s :: l' => Some (min_scan (0%nat, s) 1 l')
  end.

(** [min_shoe.quantity += add_qty] *)
Definition add_stock (add_qty : Z) (s : Shoe) : Shoe :=
  mkShoe (country s) (code s) (product s) (cost s) (quantity s + add_qty).

(** [min_shoe] is the object at position [target] of the list: the phase
    carries both, and the update of its quantity is an update of the list
    at that position. *)
Inductive restock_phase :=
  | AtConfirm (target : nat) (min_shoe : Shoe)
  | AtAmount (target : nat) (min_shoe : Shoe).

Definition ask_confirm (s : Shoe) : output :=
  Ask (AddStockFor (product s) (code s)).

Definition ask_amount (s : Shoe) : output :=
  Ask (QuantityToAdd (quantity s)).

(** Lines 222 to 236.  The handler of line 229 is never entered: the list
    is not empty when [min] is called. *)
Definition restock_begin (w : world) : option restock_phase * world :=
  match min_shoe (shoe_list w) with
  | None => (None, print [RestockEmpty] w)
  | Some (i, s) => (Some (AtConfirm i s), print [LowestStock s; ask_confirm s] w)
  end.

Definition one_of (s : text) (l : list string) : bool :=
  existsb (fun c => text_eqb s (txt c)) l.

Definition restock_step (ph : restock_phase) (w : world) (line : text)
    : option restock_phase * world :=
  match ph with
  | AtConfirm i s =>
      let choice := lower (strip line) in
      if one_of choice ["yes"; "y"]%string
      then (Some (AtAmount i s), print [ask_amount s] w)
      else if one_of choice ["no"; "n"]%string
      then (None, print [NoChanges] w)
      else (Some ph, print [YesNoInvalid; ask_confirm s] w)
  | AtAmount i s =>
      match py_int (strip line) with
      | Some add_qty =>
          if 0 <=? add_qty then
            let w1 := set_shoes (alter (add_stock add_qty) i (shoe_list w)) w in
            (None, write_shoes_data
                     (print [StockUpdated (code s) (quantity s + add_qty)] w1))
          else (Some ph, print [AmountNegative; ask_amount s] w)
      | None => (Some ph, print [AmountInvalid; ask_amount s] w)
      end
  end.

Definition re_stock (w : world) (ins : list text) : result :=
  match restock_begin w with
  | (Some ph, w') => run restock_step ph w' ins
  | (None, w') => Returned w' ins
  end.

(** *** [search_shoe] *)

Definition is_empty_list {A} (l : list A) : bool :=
  match l with [] => true | _ => false end.

Definition find_code (l : list Shoe) (search_code : text) : option Shoe :=
  find (fun shoe => text_eqb (code shoe) search_code) l.

(** Lines 277 to 291, once the line is read. *)
Definition search_for (w : world) (line : text) : world :=
  let search_code := upper (strip line) in
  match find_code (shoe_list w) search_code with
  | Some found_shoe => print [ShoeFound found_shoe] w
  | None => print [ShoeNotFound search_code] w
  end.

Definition search_shoe (w : world) (ins : list text) : result :=
  if is_empty_list (shoe_list w)
  then Returned (print [SearchEmpty] w) ins
  else
    let w' := print [Ask EnterSearchCode] w in
    match ins with
    | [] => EndOfInput w'
    | line :: ins' => Returned (search_for w' line) ins'
    end.

(** ** Predicates and examples used in the statements *)

(** The character [a] occurs in [s]. *)
Definition has_char (a : ascii) (s : text) : bool := existsb (is_char a) s.


(** What one data line contributes: its record, if it has five fields,
    and what is printed for it. *)
Definition line_effect (line : text) : option Shoe * list output :=
  match split comma (strip line) with
  | [co; cd; pr; cs; qt] =>
      let '(s, o) := Shoe_init co cd pr (inl cs) (inl qt) in (Some s, o)
  | _ => (None, [SkippingMalformed (strip line)])
  end.

Definition line_record (line : text) : option Shoe := fst (line_effect line).
Definition line_output (line : text) : list output := snd (line_effect line).

(** A file given by its lines, each ended by a line feed. *)
Definition file_of (ls : list string) : text :=
  concat (map (fun l => txt l ++ [newline]) ls).

(** Sample records and files. *)
Definition boot : Shoe :=
  mkShoe (txt "ZA") (txt "A1") (txt "Boot") (round_decimal false 105 (-1)) 4.

Definition four_field_file : text :=
  file_of ["Country,Code,Product,Cost,Quantity"; "ZA,A1,Boot,10.5,4";
           "UK,B2,Shoe,20"; "US,C3,Clog,7,0"]%string.

Definition bad_cost_file : text :=
  file_of ["Country,Code,Product,Cost,Quantity"; "ZA,A1,Boot,10.5,4";
           "UK,B2,Shoe,abc,3"; "US,C3,Clog,7,x"]%string.

Definition with_quantity (q : Z) : Shoe :=
  mkShoe (txt "ZA") (txt "A" ++ str_of_int q) (txt "Boot") float_zero q.

Definition stock_5_2_2_9 : list Shoe :=
  [with_quantity 5; mkShoe (txt "UK") (txt "B2") (txt "Shoe") float_zero 2;
   with_quantity 2; with_quantity 9].

(** The answers that lines 242 and 261 accept. *)
Definition says_yes (line : text) : bool :=
  one_of (lower (strip line)) ["yes"; "y"]%string.

Definition says_no (line : text) : bool :=
  one_of (lower (strip line)) ["no"; "n"]%string.


Definition spaced_code_file : text :=
  file_of ["Country,Code,Product,Cost,Quantity"; "ZA, ABC,Boot,1,2"]%string.

Definition spaced_code_shoe : Shoe :=
  mkShoe (txt "ZA") (txt " ABC") (txt "Boot") (round_decimal false 1 0) 2.


(** The data lines of the file: those after the header. *)
Definition data_lines (w : world) : list text :=
  match inventory_file w with
  | Some content => tail (lines content)
  | None => []
  end.




(** The text does not begin with white space. *)
Definition starts_clean (s : text) : bool :=
  match s with c :: _ => negb (isspace c) | [] => true end.

(** No text field holds a comma. *)
Definition comma_free (s : Shoe) : Prop :=
  has_char comma (country s) = false
  /\ has_char comma (code s) = false
  /\ has_char comma (product s) = false.

(** No text field holds a line feed, and the country does not begin with
    white space: so are the records that load and capture build. *)
Definition one_line (s : Shoe) : Prop :=
  has_char newline (country s) = false
  /\ has_char newline (code s) = false
  /\ has_char newline (product s) = false
  /\ starts_clean (country s) = true.





(** The texts a phase of capture holds are stripped lines. *)
Definition phase_one_line (ph : capture_phase) : Prop :=
  match ph with
  | AtCountry => True
  | AtCode co => has_char newline co = false /\ starts_clean co = true
  | AtProduct co cd =>
      has_char newline co = false /\ starts_clean co = true
      /\ has_char newline cd = false
  | AtCost co cd pr | AtQuantity co cd pr _ =>
      has_char newline co = false /\ starts_clean co = true
      /\ has_char newline cd = false /\ has_char newline pr = false
  end.



(** ** Further predicates *)

(** The state in which a run ends, however it ends. *)
Definition final_world (r : result) : world :=
  match r with
  | Returned w _ => w
  | EndOfInput w => w
  end.


(** The test of line 87, on a line of the file. *)
Definition five_fields (line : text) : bool :=
  (length (split comma line) =? 5)%nat.

Definition is_skipping (o : output) : bool :=
  match o with SkippingMalformed _ => true | _ => false end.

(** The codes of a collection, in order. *)
Definition codes (l : list Shoe) : list text := map code l.

(** What a phase of capture holds: stripped lines that were typed, none
    empty, a code that no record of the collection has, and a cost that
    [float] read from a typed line. *)
Definition typed_text (typed : list text) (t : text) : Prop :=
  t <> [] /\ exists x, In x typed /\ t = strip x.

Definition typed_code (l : list Shoe) (typed : list text) (c : text) : Prop :=
  c <> [] /\ (exists x, In x typed /\ c = upper (strip x))
  /\ forall t, In t l -> code t <> c.

Definition typed_cost (typed : list text) (c : float) : Prop :=
  float_ge0 c = true /\ exists x, In x typed /\ py_float (strip x) = Some c.

Definition typed_quantity (typed : list text) (q : Z) : Prop :=
  0 <= q /\ exists x, In x typed /\ py_int (strip x) = Some q.

Definition phase_fields (l : list Shoe) (typed : list text) (ph : capture_phase) : Prop :=
  match ph with
  | AtCountry => True
  | AtCode co => typed_text typed co
  | AtProduct co cd => typed_text typed co /\ typed_code l typed cd
  | AtCost co cd pr =>
      typed_text typed co /\ typed_code l typed cd /\ typed_text typed pr
  | AtQuantity co cd pr c =>
      typed_text typed co /\ typed_code l typed cd /\ typed_text typed pr
      /\ typed_cost typed c
  end.

(** The record that capture builds from the typed lines. *)
Definition captured (l : list Shoe) (typed : list text) (s : Shoe) : Prop :=
  typed_text typed (country s) /\ typed_code l typed (code s)
  /\ typed_text typed (product s) /\ typed_cost typed (cost s)
  /\ typed_quantity typed (quantity s).

(** A capture with some refused answers. *)
Definition capture_example : result :=
  capture_shoes (mkWorld stock_5_2_2_9 None [])
    [txt " NL "; txt "b2"; txt " d4 "; txt ""; txt "Clog"; txt "-1"; txt "12.5";
     txt "six"; txt "6"; txt "next"].



(** A line that is neither a yes nor a no. *)
Definition no_answer (line : text) : Prop :=
  says_yes line = false /\ says_no line = false.



(** ** The reports: [view_all], [value_per_item], [highest_qty] *)

(** [max(shoe_list, key=lambda shoe: shoe.quantity)], with the position
    of the item it returns: the scan keeps the first item and replaces it
    when the key of a later one is strictly larger. *)
Fixpoint max_scan (best : nat * Shoe) (i : nat) (l : list Shoe) : nat * Shoe :=
  match l with
  | [] => best
  | s :: l' =>
      if quantity (snd best) <? quantity s then max_scan (i, s) (S i) l'
      else max_scan best (S i) l'
  end.

Definition max_shoe (l : list Shoe) : option (nat * Shoe) :=
  match l with
  | [] => None
  | s :: l' => Some (max_scan (0%nat, s) 1 l')
  end.

(** [float(n)] for an [int], as the product of a float and an int needs
    it: the nearest binary64, and [OverflowError] ([None]) when that is
    out of range. *)
Definition float_of_int (z : Z) : option float :=
  match binary_normalize prec emax z 0 false with
  | S754_infinity _ => None
  | f => Some f
  end.

(** [cost * quantity], a float times an int. *)
Definition float_times_int (c : float) (q : Z) : option float :=
  option_map (SFmul prec emax c) (float_of_int q).

(** [format(x, ".2f")]: the value rounded to two decimal places, ties to
    even, from its exact binary value. *)
Definition float_fixed2 (x : float) : text :=
  match x with
  | S754_nan => txt "nan"
  | S754_infinity s => if s then txt "-inf" else txt "inf"
  | S754_zero s => if s then txt "-0.00" else txt "0.00"
  | S754_finite s m e =>
      let num := (if 0 <=? e then Z.pos m * 2 ^ e else Z.pos m) * 100 in
      let den := if 0 <=? e then 1 else 2 ^ (- e) in
      let q := num / den in
      let r := num mod den in
      let q' := if (den <? 2 * r) || ((2 * r =? den) && Z.odd q) then q + 1 else q in
      (if s then ["-"%char] else [])
      ++ str_of_nat (q' / 100)
      ++ ["."%char; digit_char (q' mod 100 / 10); digit_char (q' mod 10)]
  end.

(** A cell of the rows handed to [tabulate]: a [str] or an [int]. *)
Inductive cell :=
  | TextCell (t : text)
  | IntCell (z : Z).

(** What the global name [tabulate] is bound to when a report runs.
    Line 2 binds it to the function of the [tabulate] package.  When the
    file is run as a script, the [import tabulate] of line 397 binds the
    same global name again, to the module, before [main_menu] is called;
    a module is not callable.  (Without the package line 2 raises and
    nothing runs, so the replacement function of line 406 is never
    defined.) *)
Inductive tabulate_binding :=
  | TabulateFunction
  | TabulateModule.

(** The exceptions that leave a report, and with it [main_menu]. *)
Inductive crash :=
  | TypeError        (* the call of line 213 or 318, [tabulate] being a module *)
  | OverflowError.   (* the product of line 307, the quantity being too large *)

Inductive report_output :=
  | ViewEmpty                                   (* line 201 *)
  | ViewBanner                                  (* line 204 *)
  | Table (headers : list string) (rows : list (list cell)) (* lines 213, 318 *)
  | ValueEmpty                                  (* line 300 *)
  | ValueBanner                                 (* line 303 *)
  | HighestEmpty                                (* line 327 *)
  | ForSale (s : Shoe)                          (* lines 336-339 *)
  | Recommended (product code : text) (q : Z)   (* lines 340-342 *)
  | MenuShown                                   (* lines 353-364 *)
  | AskChoice                                   (* line 366 *)
  | Reloading                                   (* line 381 *)
  | Goodbye                                     (* line 384 *)
  | InvalidChoice                               (* line 387 *)
  | AskEnter.                                   (* line 389 *)

(** A report reads the collection and prints; it ends normally or with an
    exception. *)
Definition view_all (tab : tabulate_binding) (l : list Shoe)
    : list report_output * option crash :=
  match l with
  | [] => ([ViewEmpty], None)
  | _ =>
      let table_data :=
        map (fun s => [TextCell (country s); TextCell (code s);
                       TextCell (product s); TextCell (float_fixed2 (cost s));
                       IntCell (quantity s)]) l in
      match tab with
      | TabulateFunction =>
          ([ViewBanner;
            Table ["Country"; "Code"; "Product"; "Cost"; "Quantity"]%string
              table_data], None)
      | TabulateModule => ([ViewBanner], Some TypeError)
      end
  end.

(** The loop of lines 306 to 316; [None] when a product overflows. *)
Fixpoint value_rows (l : list Shoe) : option (list (list cell)) :=
  match l with
  | [] => Some []
  | shoe :: l' =>
      match float_times_int (cost shoe) (quantity shoe) with
      | None => None
      | Some value =>
          option_map
            (cons [TextCell (code shoe); TextCell (product shoe);
                   TextCell (float_fixed2 (cost shoe)); IntCell (quantity shoe);
                   TextCell (float_fixed2 value)])
            (value_rows l')
      end
  end.

Definition value_per_item (tab : tabulate_binding) (l : list Shoe)
    : list report_output * option crash :=
  match l with
  | [] => ([ValueEmpty], None)
  | _ =>
      match value_rows l with
      | None => ([ValueBanner], Some OverflowError)
      | Some table_data =>
          match tab with
          | TabulateFunction =>
              ([ValueBanner;
                Table ["Code"; "Product"; "Cost"; "Quantity"; "Total Value"]%string
                  table_data], None)
          | TabulateModule => ([ValueBanner], Some TypeError)
          end
      end
  end.

(** Lines 326 to 342.  The handler of line 332 is never entered. *)
Definition highest_qty (l : list Shoe) : list report_output :=
  match max_shoe l with
  | None => [HighestEmpty]
  | Some (_, max_shoe) =>
      [ForSale max_shoe;
       Recommended (product max_shoe) (code max_shoe) (quantity max_shoe)]
  end.

(** ** The menu: [main_menu] *)

(** A session prints the messages of the operations and those of the
    reports and of the menu, in order. *)
Inductive entry :=
  | Core (o : output)
  | Report (r : report_output).

Record session := mkSession {
  shoes : list Shoe;          (* the global [shoe_list] *)
  file : option text;         (* [inventory.txt] *)
  log : list entry            (* printed so far, oldest first *)
}.

(** The state an operation starts in, and the session after it. *)
Definition world_of (s : session) : world := mkWorld (shoes s) (file s) [].

Definition absorb (s : session) (w : world) : session :=
  mkSession (shoe_list w) (inventory_file w) (log s ++ map Core (stdout w)).

Definition report (r : list report_output) (s : session) : session :=
  mkSession (shoes s) (file s) (log s ++ map Report r).

(** Where the menu waits for a line: at its own prompt, inside capture,
    restock or search, or at the pause of line 389. *)
Inductive menu_phase :=
  | AtChoice
  | InCapture (ph : capture_phase)
  | InRestock (ph : restock_phase)
  | InSearch
  | AtPause.

Inductive menu_next :=
  | Continue (ph : menu_phase) (s : session)
  | Exit (s : session)
  | Crash (e : crash) (s : session).

Definition pause (s : session) : menu_next :=
  Continue AtPause (report [AskEnter] s).

Definition after_report (s : session) (r : list report_output * option crash)
    : menu_next :=
  match snd r with
  | Some e => Crash e (report (fst r) s)
  | None => pause (report (fst r) s)
  end.

Definition after_step {P : Type} (inside : P -> menu_phase) (s : session)
    (r : option P * world) : menu_next :=
  match r with
  | (Some ph, w') => Continue (inside ph) (absorb s w')
  | (None, w') => pause (absorb s w')
  end.

Definition menu_step (tab : tabulate_binding) (ph : menu_phase) (s : session)
    (line : text) : menu_next :=
  match ph with
  | AtChoice =>
      let choice := strip line in
      if text_eqb choice (txt "1") then after_report s (view_all tab (shoes s))
      else if text_eqb choice (txt "2") then
        Continue (InCapture AtCountry)
          (absorb s (print [CaptureBanner; Ask EnterCountry] (world_of s)))
      else if text_eqb choice (txt "3") then
        after_step InRestock s (restock_begin (world_of s))
      else if text_eqb choice (txt "4") then
        if is_empty_list (shoes s)
        then pause (absorb s (print [SearchEmpty] (world_of s)))
        else Continue InSearch (absorb s (print [Ask EnterSearchCode] (world_of s)))
      else if text_eqb choice (txt "5") then
        after_report s (value_per_item tab (shoes s))
      else if text_eqb choice (txt "6") then
        after_report s (highest_qty (shoes s), None)
      else if text_eqb choice (txt "7") then
        pause (absorb (report [Reloading] s)
                 (read_shoes_data (world_of (report [Reloading] s))))
      else if text_eqb choice (txt "0") then Exit (report [Goodbye] s)
      else pause (report [InvalidChoice] s)
  | InCapture cph => after_step InCapture s (capture_step cph (world_of s) line)
  | InRestock rph => after_step InRestock s (restock_step rph (world_of s) line)
  | InSearch => pause (absorb s (search_for (world_of s) line))
  | AtPause => Continue AtChoice (report [MenuShown; AskChoice] s)
  end.

(** How a session ends: choice 0, an exception that nothing catches, or
    the end of the typed lines ([EOFError]). *)
Inductive session_end :=
  | Exited (s : session) (unread : list text)
  | Crashed (e : crash) (s : session)
  | OutOfInput (s : session).

Fixpoint menu_run (tab : tabulate_binding) (ph : menu_phase) (s : session)
    (ins : list text) : session_end :=
  match ins with
  | [] => OutOfInput s
  | x :: ins' =>
      match menu_step tab ph s x with
      | Continue ph' s' => menu_run tab ph' s' ins'
      | Exit s' => Exited s' ins'
      | Crash e s' => Crashed e s'
      end
  end.

(** [main_menu()], from the state in which the module is loaded (an
    empty [shoe_list]) and a given [inventory.txt]. *)
Definition main_menu (tab : tabulate_binding) (inventory : option text)
    (ins : list text) : session_end :=
  let loaded := absorb (mkSession [] inventory [])
                  (read_shoes_data (mkWorld [] inventory [])) in
  menu_run tab AtChoice (report [MenuShown; AskChoice] loaded) ins.

(** The file run as a script, the package [tabulate] being installed. *)
Definition run_script (inventory : option text) (ins : list text) : session_end :=
  main_menu TabulateModule inventory ins.

Definition session_of (e : session_end) : session :=
  match e with
  | Exited s _ => s
  | Crashed _ s => s
  | OutOfInput s => s
  end.

(** The collection is what the file gives, or the file is what was
    written for the collection. *)
Definition in_sync (l : list Shoe) (f : option text) : Prop :=
  exists content,
    f = Some content
    /\ (l = omap line_record (tail (lines content)) \/ content = file_text l).

(** What holds of a session wherever the menu waits. *)
Definition session_ok (ph : menu_phase) (s : session) : Prop :=
  in_sync (shoes s) (file s)
  /\ (Forall one_line (shoes s)
      /\ match ph with InCapture cph => phase_one_line cph | _ => True end).

(** A collection with a tie for the largest quantity. *)
Definition stock_5_9_2_9 : list Shoe :=
  [with_quantity 5; mkShoe (txt "UK") (txt "B2") (txt "Shoe") float_zero 9;
   with_quantity 2; with_quantity 9].

(** A session: a capture, a restock, a search, then choice 0. *)
Definition session_lines : list text :=
  [txt "2"; txt "NL"; txt "d4"; txt "Clog"; txt "12.5"; txt "6"; txt "";
   txt " 3 "; txt "y"; txt "4"; txt "";
   txt "4"; txt "c3"; txt "";
   txt "9"; txt "";
   txt "0"; txt "unread"].

Definition session_example : session_end :=
  run_script (Some four_field_file) session_lines.


(** The same state, with [o] printed before. *)
Definition prefixed (o : list output) (w : world) : world :=
  mkWorld (shoe_list w) (inventory_file w) (o ++ stdout w).

(** The function that [main_menu] calls for a choice that reads further
    lines (lines 368 to 373). *)
Definition operation (choice : text) : option (world -> list text -> result) :=
  if text_eqb choice (txt "2") then Some capture_shoes
  else if text_eqb choice (txt "3") then Some re_stock
  else if text_eqb choice (txt "4") then Some search_shoe
  else None.

(** The session after an operation called from the menu: the pause of
    line 389 follows its return, and the end of the typed lines inside it
    ends the session. *)
Definition resume (tab : tabulate_binding) (s : session) (r : result)
    : session_end :=
  match r with
  | Returned w' rest => menu_run tab AtPause (report [AskEnter] (absorb s w')) rest
  | EndOfInput w' => OutOfInput (absorb s w')
  end.

Definition loaded_session : session :=
  absorb (mkSession [] (Some four_field_file) [])
    (read_shoes_data (mkWorld [] (Some four_field_file) [])).

(** * Properties *)

(** ** Characters and text *)

Lemma code_of_inj (a c : ascii) : code_of a = code_of c -> a = c.
Proof.
  unfold code_of. intros H. apply N2Z.inj in H.
  rewrite <- (ascii_N_embedding a), <- (ascii_N_embedding c). now f_equal.
Qed.

Lemma is_char_true (a c : ascii) : is_char a c = true <-> c = a.
Proof.
  unfold is_char. rewrite Z.eqb_eq. split; [apply code_of_inj | now intros ->].
Qed.


Lemma text_eqb_true (a b : text) : text_eqb a b = true <-> a = b.
Proof. unfold text_eqb. apply bool_decide_eq_true. Qed.

Lemma text_eqb_false (a b : text) : text_eqb a b = false <-> a <> b.
Proof. unfold text_eqb. apply bool_decide_eq_false. Qed.

Lemma has_char_app a s t : has_char a (s ++ t) = has_char a s || has_char a t.
Proof. apply existsb_app. Qed.

Lemma has_char_cons a c s : has_char a (c :: s) = is_char a c || has_char a s.
Proof. reflexivity. Qed.



(** The number of fields is one more than the number of separators. *)
Lemma split_length sep s :
  length (split sep s) = S (length (List.filter (is_char sep) s)).
Proof.
  induction s as [|c s IH]; simpl; [reflexivity|].
  destruct (is_char sep c); simpl; [now rewrite IH|].
  destruct (split sep s); simpl in *; [discriminate | exact IH].
Qed.


(** What [lstrip] removes is white space only. *)
Lemma lstrip_with_split sp s :
  exists ws, s = ws ++ lstrip_with sp s /\ forallb sp ws = true.
Proof.
  induction s as [|c s [ws [E F]]]; simpl.
  - now exists [].
  - destruct (sp c) eqn:Hc.
    + exists (c :: ws). simpl. rewrite Hc, F. split; [now f_equal | reflexivity].
    + now exists [].
Qed.

Lemma rstrip_with_split sp s :
  exists ws, s = rstrip_with sp s ++ ws /\ forallb sp ws = true.
Proof.
  unfold rstrip_with.
  destruct (lstrip_with_split sp (rev s)) as [ws [E F]].
  exists (rev ws). split.
  - rewrite <- rev_app_distr, <- E. now rewrite rev_involutive.
  - rewrite forallb_forall in *. intros x Hx. apply F. now apply in_rev.
Qed.

Lemma strip_with_split sp s :
  exists l r, s = l ++ strip_with sp s ++ r
              /\ forallb sp l = true /\ forallb sp r = true.
Proof.
  unfold strip_with.
  destruct (lstrip_with_split sp s) as [l [E F]].
  destruct (rstrip_with_split sp (lstrip_with sp s)) as [r [E' F']].
  exists l, r. split; [|split]; trivial. now rewrite <- E'.
Qed.


Lemma rstrip_with_space sp s c :
  sp c = true -> rstrip_with sp (s ++ [c]) = rstrip_with sp s.
Proof.
  intros H. unfold rstrip_with. rewrite rev_app_distr. simpl. now rewrite H.
Qed.

(** Stripping keeps the number of fields: white space is not a comma. *)
Lemma filter_comma_space ws :
  forallb isspace ws = true -> List.filter (is_char comma) ws = [].
Proof.
  induction ws as [|c ws IH]; simpl; [reflexivity|].
  intros H. apply andb_true_iff in H as [Hc Hw].
  destruct (is_char comma c) eqn:E; [|auto].
  apply is_char_true in E. subst c. discriminate.
Qed.

Lemma split_strip_length s :
  length (split comma (strip s)) = length (split comma s).
Proof.
  destruct (strip_with_split isspace s) as [l [r [E [Fl Fr]]]].
  fold (strip s) in E. rewrite !split_length. f_equal.
  rewrite E at 2. rewrite !List.filter_app.
  rewrite (filter_comma_space l Fl), (filter_comma_space r Fr).
  now rewrite app_nil_r.
Qed.



(** ** [int] and [str] on integers *)















(** ** The model of [int], [float] and [repr] on sample values *)

Example py_int_samples :
  map (fun s => py_int (txt s))
    [" -1_000 "; "+7"; "007"; "0"; "1__0"; "_1"; "1_"; "12a"; ""; "- 5"; "3.0"]%string
  = [Some (-1000); Some 7; Some 7; Some 0; None; None; None; None; None; None; None].
Proof. vm_compute. reflexivity. Qed.

Example str_of_int_samples :
  map (fun z => string_of_list_ascii (str_of_int z)) [0; 7; 10; -45; 1234567890123]
  = ["0"; "7"; "10"; "-45"; "1234567890123"]%string.
Proof. vm_compute. reflexivity. Qed.

Example float_samples :
  map (fun s => option_map (fun x => string_of_list_ascii (float_repr x))
                  (py_float (txt s)))
    ["10.5"; "0.1"; "100"; " 7 "; "1_0.5"; ".5"; "1."; "-3.25"; "-0";
     "1e22"; "1E+2"; "1e16"; "9999999999999998"; "123456789012345678";
     "0.0001"; "0.00001"; "5e-324"; "1.7976931348623157e308"; "1e400";
     "0.30000000000000004"; "9007199254740993"; "nan"; "-INF"; "Infinity";
     "abc"; ""; "."; "1e"; "1_.5"; "1 0"; "0x10"; "12_"]%string
  = [Some "10.5"; Some "0.1"; Some "100.0"; Some "7.0"; Some "10.5"; Some "0.5";
     Some "1.0"; Some "-3.25"; Some "-0.0";
     Some "1e+22"; Some "100.0"; Some "1e+16"; Some "9999999999999998.0";
     Some "1.2345678901234568e+17";
     Some "0.0001"; Some "1e-05"; Some "5e-324"; Some "1.7976931348623157e+308";
     Some "inf"; Some "0.30000000000000004"; Some "9007199254740992.0";
     Some "nan"; Some "-inf"; Some "inf";
     None; None; None; None; None; None; None; None]%string.
Proof. vm_compute. reflexivity. Qed.

Example float_comparison_samples :
  (float_eqb S754_nan S754_nan, float_ge0 S754_nan,
   float_eqb (S754_zero true) float_zero, float_ge0 (S754_zero true),
   float_ge0 (S754_infinity false), float_ge0 (round_decimal true 1 (-3)))
  = (false, false, true, true, true, false).
Proof. vm_compute. reflexivity. Qed.

(** ** Loading *)

Lemma load_line_effect w line :
  load_line w line =
  mkWorld (shoe_list w ++ option_list (line_record line))
          (inventory_file w)
          (stdout w ++ line_output line).
Proof.
  unfold load_line, line_record, line_output, line_effect.
  destruct (split comma (strip line)) as [|co [|cd [|pr [|cs [|qt [|x l]]]]]];
    simpl; try (now rewrite app_nil_r).
  destruct (Shoe_init co cd pr (inl cs) (inl qt)) as [s o]. reflexivity.
Qed.

Lemma load_lines_effect data : forall w,
  fold_left load_line data w =
  mkWorld (shoe_list w ++ omap line_record data)
          (inventory_file w)
          (stdout w ++ concat (map line_output data)).
Proof.
  induction data as [|line data IH]; intros w; simpl.
  - destruct w. simpl. now rewrite !app_nil_r.
  - rewrite IH, load_line_effect. simpl.
    destruct (line_record line); simpl; now rewrite <- ?app_assoc, ?app_nil_r.
Qed.

Lemma read_present w content hdr data :
  inventory_file w = Some content ->
  lines content = hdr :: data ->
  read_shoes_data w =
  mkWorld (omap line_record data) (Some content)
          (stdout w ++ concat (map line_output data)
                    ++ [Loaded (length (omap line_record data))]).
Proof.
  intros F L. unfold read_shoes_data, read_try. simpl.
  rewrite F, L, load_lines_effect. unfold print. simpl.
  now rewrite F, <- app_assoc.
Qed.

Lemma line_record_five line :
  length (split comma line) = 5%nat <-> exists s, line_record line = Some s.
Proof.
  rewrite <- split_strip_length.
  unfold line_record, line_effect.
  destruct (split comma (strip line)) as [|co [|cd [|pr [|cs [|qt [|x l]]]]]];
    simpl; try (split; [discriminate | intros [s E]; discriminate]).
  destruct (Shoe_init co cd pr (inl cs) (inl qt)) as [s o].
  split; [now exists s | reflexivity].
Qed.

Lemma line_record_not_five line :
  length (split comma line) <> 5%nat ->
  line_record line = None /\ line_output line = [SkippingMalformed (strip line)].
Proof.
  rewrite <- split_strip_length.
  unfold line_record, line_output, line_effect.
  destruct (split comma (strip line)) as [|co [|cd [|pr [|cs [|qt [|x l]]]]]];
    simpl; intros H; try (split; reflexivity).
  now contradict H.
Qed.

Lemma line_effect_five line co cd pr cs qt :
  split comma (strip line) = [co; cd; pr; cs; qt] ->
  line_record line =
    Some (mkShoe co cd pr (default float_zero (py_float cs)) (default 0 (py_int qt)))
  /\ line_output line =
       match py_float cs with Some _ => [] | None => [InvalidCost cs cd] end
       ++ match py_int qt with Some _ => [] | None => [InvalidQuantity qt cd] end.
Proof.
  intros S. unfold line_record, line_output, line_effect. rewrite S.
  unfold Shoe_init. destruct (py_float cs), (py_int qt); split; reflexivity.
Qed.

Lemma in_load_output w content hdr data line o :
  inventory_file w = Some content ->
  lines content = hdr :: data ->
  In line data -> In o (line_output line) ->
  In o (stdout (read_shoes_data w)).
Proof.
  intros F L Hl Ho. rewrite (read_present w content hdr data F L). simpl.
  apply in_or_app. right. apply in_or_app. left.
  apply in_concat. exists (line_output line). split; [now apply in_map | exact Ho].
Qed.

Lemma read_shoes_data_records (w : world) :
  shoe_list (read_shoes_data w) = omap line_record (data_lines w).
Proof.
  unfold data_lines. destruct (inventory_file w) as [content|] eqn:F.
  - destruct (lines content) as [|hdr data] eqn:L.
    + unfold read_shoes_data, read_try. simpl. now rewrite F, L.
    + now rewrite (read_present w content hdr data F L).
  - unfold read_shoes_data, read_try. simpl. now rewrite F.
Qed.

Lemma data_lines_present (w : world) :
  data_lines w <> [] ->
  exists content hdr,
    inventory_file w = Some content /\ lines content = hdr :: data_lines w.
Proof.
  unfold data_lines. destruct (inventory_file w) as [content|]; [|congruence].
  destruct (lines content) as [|hdr data] eqn:L; [simpl; congruence|].
  intros _. now exists content, hdr.
Qed.

(** C9. If [inventory.txt] does not exist, loading creates it with the
    header line [Country,Code,Product,Cost,Quantity] alone and leaves an
    empty collection; it prints that the file was not found and that it
    was created, and no warning about any line. *)
Theorem C9_load_missing_file (w : world) :
  inventory_file w = None ->
  let w' := read_shoes_data w in
  inventory_file w' = Some (txt "Country,Code,Product,Cost,Quantity" ++ [newline])
  /\ shoe_list w' = []
  /\ exists printed,
       stdout w' = stdout w ++ printed
       /\ printed = [FileWasNotFound; FileCreated]
       /\ Forall (fun o => is_warning o = false) printed.
Proof.
  intros F. unfold read_shoes_data, read_try. simpl. rewrite F. simpl.
  split; [reflexivity|]. split; [reflexivity|].
  exists [FileWasNotFound; FileCreated]. rewrite <- app_assoc.
  repeat split; repeat constructor.
Qed.

Lemma C9_load_missing_file_witness :
  let w' := read_shoes_data (mkWorld [boot] None []) in
  inventory_file w' = Some (txt "Country,Code,Product,Cost,Quantity" ++ [newline])
  /\ shoe_list w' = []
  /\ exists printed,
       stdout w' = [] ++ printed
       /\ printed = [FileWasNotFound; FileCreated]
       /\ Forall (fun o => is_warning o = false) printed.
Proof. exact (C9_load_missing_file (mkWorld [boot] None []) eq_refl). Defined.

(** C10. If [inventory.txt] exists and is completely empty, skipping the
    header raises [StopIteration] inside the [try] block, in a state whose
    collection is already cleared; the broad handler absorbs it, so the
    load returns normally with an empty collection and the file as it
    was. *)
Theorem C10_load_empty_file (w : world) :
  inventory_file w = Some [] ->
  read_try (set_shoes [] w) = inl (StopIteration, set_shoes [] w)
  /\ shoe_list (set_shoes [] w) = []
  /\ read_shoes_data w =
     mkWorld [] (Some []) (stdout w ++ [UnexpectedReadError StopIteration]).
Proof.
  intros F. unfold read_shoes_data, read_try. simpl. rewrite F. simpl.
  unfold print. simpl. rewrite F. repeat split.
Qed.

Lemma C10_load_empty_file_witness :
  read_shoes_data (mkWorld [boot] (Some []) []) =
  mkWorld [] (Some []) [UnexpectedReadError StopIteration].
Proof.
  exact (proj2 (proj2 (C10_load_empty_file (mkWorld [boot] (Some []) []) eq_refl))).
Defined.

(** C7. A data line that does not split on commas into exactly five
    fields yields no record and a warning, and the load goes on: the
    collection is made of the records of the five-field lines, in order,
    and the load ends by reporting how many it loaded.  In particular,
    with a four-field line the collection is the one the other lines
    give. *)
Theorem C7_load_skips_malformed (w : world) :
  let w' := read_shoes_data w in
  shoe_list w' = omap line_record (data_lines w)
  /\ (forall line, In line (data_lines w) -> length (split comma line) <> 5%nat ->
        line_record line = None
        /\ In (SkippingMalformed (strip line)) (stdout w'))
  /\ (forall line, In line (data_lines w) -> length (split comma line) = 5%nat ->
        exists s, line_record line = Some s /\ In s (shoe_list w'))
  /\ (data_lines w <> [] ->
        last (stdout w') = Some (Loaded (length (shoe_list w'))))
  /\ (forall pre bad post, data_lines w = pre ++ bad :: post ->
        length (split comma bad) = 4%nat ->
        shoe_list w' = omap line_record pre ++ omap line_record post).
Proof.
  intros w'. subst w'.
  split; [apply read_shoes_data_records|]. split; [|split; [|split]].
  - intros line Hin H5. destruct (line_record_not_five line H5) as [R O].
    split; [exact R|].
    destruct (data_lines_present w) as [content [hdr [F L]]]; [now intros E; rewrite E in Hin|].
    apply (in_load_output w content hdr (data_lines w) line); trivial.
    rewrite O. now left.
  - intros line Hin H5. apply line_record_five in H5 as [s E].
    exists s. split; [exact E|]. rewrite read_shoes_data_records.
    apply list_elem_of_In, list_elem_of_omap.
    exists line. split; [now apply list_elem_of_In | exact E].
  - intros Hne. destruct (data_lines_present w Hne) as [content [hdr [F L]]].
    rewrite (read_present w content hdr _ F L). simpl.
    rewrite app_assoc. apply last_snoc.
  - intros pre bad post E H4. rewrite read_shoes_data_records, E, omap_app. simpl.
    destruct (line_record_not_five bad) as [R _]; [now rewrite H4|].
    now rewrite R.
Qed.

Lemma C7_load_skips_malformed_witness :
  let w' := read_shoes_data (mkWorld [] (Some four_field_file) []) in
  shoe_list w' =
    [boot; mkShoe (txt "US") (txt "C3") (txt "Clog") (round_decimal false 7 0) 0]
  /\ In (SkippingMalformed (txt "UK,B2,Shoe,20")) (stdout w').
Proof.
  pose proof (C7_load_skips_malformed (mkWorld [] (Some four_field_file) []))
    as [_ [W [_ [_ P]]]].
  split.
  - rewrite (P [txt "ZA,A1,Boot,10.5,4" ++ [newline]]
               (txt "UK,B2,Shoe,20" ++ [newline])
               [txt "US,C3,Clog,7,0" ++ [newline]] eq_refl eq_refl).
    reflexivity.
  - apply (W (txt "UK,B2,Shoe,20" ++ [newline])).
    + right. left. reflexivity.
    + discriminate.
Defined.

(** C8. A five-field line whose cost does not parse still gives a record,
    with cost 0.0; one whose quantity does not parse gives a record with
    quantity 0.  The other fields are those of the line, a notice is
    printed, and the records of the other lines are what they are without
    this line. *)
Theorem C8_load_coerces_bad_numbers (w : world)
    (pre post : list text) (line co cd pr cs qt : text) :
  data_lines w = pre ++ line :: post ->
  split comma (strip line) = [co; cd; pr; cs; qt] ->
  let w' := read_shoes_data w in
  let loaded c q :=
    shoe_list w' = omap line_record pre ++ mkShoe co cd pr c q :: omap line_record post in
  (py_float cs = None ->
     In (InvalidCost cs cd) (stdout w')
     /\ loaded float_zero (default 0 (py_int qt)))
  /\ (py_int qt = None ->
     In (InvalidQuantity qt cd) (stdout w')
     /\ loaded (default float_zero (py_float cs)) 0).
Proof.
  intros D S w' loaded. subst w' loaded.
  destruct (line_effect_five line co cd pr cs qt S) as [R O].
  destruct (data_lines_present w) as [content [hdr [F L]]];
    [rewrite D; now destruct pre|].
  assert (P : forall o, In o (line_output line) ->
                In o (stdout (read_shoes_data w))).
  { intros o Ho. apply (in_load_output w content hdr _ line o F L); [|exact Ho].
    rewrite D. apply in_or_app. right. now left. }
  assert (Sh : shoe_list (read_shoes_data w) =
               omap line_record pre
               ++ mkShoe co cd pr (default float_zero (py_float cs))
                    (default 0 (py_int qt)) :: omap line_record post).
  { rewrite read_shoes_data_records, D, omap_app. simpl. now rewrite R. }
  rewrite O in P. rewrite Sh. clear Sh R O.
  split.
  - intros Hc. rewrite Hc in *. split; [|reflexivity].
    apply P. now left.
  - intros Hq. rewrite Hq in *. split; [|reflexivity].
    apply P. apply in_or_app. right. now left.
Qed.

Lemma C8_load_coerces_bad_numbers_witness :
  let w' := read_shoes_data (mkWorld [] (Some bad_cost_file) []) in
  In (InvalidCost (txt "abc") (txt "B2")) (stdout w')
  /\ shoe_list w' =
     [boot; mkShoe (txt "UK") (txt "B2") (txt "Shoe") float_zero 3;
      mkShoe (txt "US") (txt "C3") (txt "Clog") (round_decimal false 7 0) 0].
Proof.
  exact (proj1 (C8_load_coerces_bad_numbers
                  (mkWorld [] (Some bad_cost_file) [])
                  [txt "ZA,A1,Boot,10.5,4" ++ [newline]]
                  [txt "US,C3,Clog,7,x" ++ [newline]]
                  (txt "UK,B2,Shoe,abc,3" ++ [newline])
                  (txt "UK") (txt "B2") (txt "Shoe") (txt "abc") (txt "3")
                  eq_refl eq_refl) eq_refl).
Defined.

(** ** Restock *)

Lemma min_scan_spec (l : list Shoe) : forall (pre : list Shoe) b sb,
  pre !! b = Some sb ->
  (forall t, In t pre -> quantity sb <= quantity t) ->
  (forall j t, (j < b)%nat -> pre !! j = Some t -> quantity sb < quantity t) ->
  let r := min_scan (b, sb) (length pre) l in
  (pre ++ l) !! r.1 = Some r.2
  /\ (forall t, In t (pre ++ l) -> quantity r.2 <= quantity t)
  /\ (forall j t, (j < r.1)%nat -> (pre ++ l) !! j = Some t ->
        quantity r.2 < quantity t).
Proof.
  induction l as [|s l IH]; intros pre b sb Hb Hmin Hfirst; simpl.
  - rewrite app_nil_r. auto.
  - assert (Hlt : (b < length pre)%nat) by (eapply lookup_lt_Some; eauto).
    replace (pre ++ s :: l) with ((pre ++ [s]) ++ l) by now rewrite <- app_assoc.
    replace (S (length pre)) with (length (pre ++ [s]))
      by (rewrite length_app; simpl; lia).
    destruct (quantity s <? quantity sb) eqn:E.
    + apply Z.ltb_lt in E. apply IH.
      * rewrite lookup_app_r, Nat.sub_diag by lia. reflexivity.
      * intros t Ht. apply in_app_or in Ht as [Ht|[<-|[]]]; [|lia].
        specialize (Hmin t Ht). lia.
      * intros j t Hj Ht. rewrite lookup_app_l in Ht by lia.
        assert (In t pre) by (apply list_elem_of_In; eapply list_elem_of_lookup_2; eauto).
        specialize (Hmin t H). lia.
    + apply Z.ltb_ge in E. apply IH.
      * rewrite lookup_app_l by lia. exact Hb.
      * intros t Ht. apply in_app_or in Ht as [Ht|[<-|[]]]; [auto|lia].
      * intros j t Hj Ht. rewrite lookup_app_l in Ht by lia. eauto.
Qed.

Lemma min_shoe_spec (l : list Shoe) :
  l <> [] ->
  exists i s, min_shoe l = Some (i, s)
    /\ l !! i = Some s
    /\ (forall t, In t l -> quantity s <= quantity t)
    /\ (forall j t, (j < i)%nat -> l !! j = Some t -> quantity s < quantity t).
Proof.
  destruct l as [|s l]; [congruence|]. intros _.
  pose proof (min_scan_spec l [s] 0%nat s eq_refl) as H. simpl in H.
  destruct (min_scan (0%nat, s) 1 l) as [i m] eqn:E.
  exists i, m. split; [simpl; now rewrite E|]. apply H.
  - intros t [<-|[]]. lia.
  - intros j t Hj. lia.
Qed.

(** C4. On a collection that is not empty, restock chooses the record at
    the earliest position whose quantity is the least of the collection:
    no record has a smaller quantity and every record before it has a
    larger one.  With quantities 5, 2, 2, 9 it is the record at index 1. *)
Theorem C4_restock_target (w : world) :
  shoe_list w <> [] ->
  (exists i s,
     (restock_begin w).1 = Some (AtConfirm i s)
     /\ shoe_list w !! i = Some s
     /\ (forall t, In t (shoe_list w) -> quantity s <= quantity t)
     /\ (forall j t, (j < i)%nat -> shoe_list w !! j = Some t ->
           quantity s < quantity t))
  /\ (forall a b c d,
        quantity a = 5 -> quantity b = 2 -> quantity c = 2 -> quantity d = 9 ->
        min_shoe [a; b; c; d] = Some (1%nat, b)).
Proof.
  intros Hne. split.
  - destruct (min_shoe_spec (shoe_list w) Hne) as [i [s [E H]]].
    exists i, s. split; [|exact H]. unfold restock_begin. now rewrite E.
  - intros a b c d Ha Hb Hc Hd. simpl. now rewrite Ha, Hb, Hc, Hd.
Qed.

Lemma C4_restock_target_witness :
  min_shoe stock_5_2_2_9
  = Some (1%nat, mkShoe (txt "UK") (txt "B2") (txt "Shoe") float_zero 2).
Proof.
  refine (proj2 (C4_restock_target (mkWorld stock_5_2_2_9 None []) _)
            (with_quantity 5)
            (mkShoe (txt "UK") (txt "B2") (txt "Shoe") float_zero 2)
            (with_quantity 2) (with_quantity 9)
            eq_refl eq_refl eq_refl eq_refl).
  discriminate.
Defined.

Lemma run_confirm_again i s junk : forall w ins,
  Forall (fun x => says_yes x = false /\ says_no x = false) junk ->
  exists w', run restock_step (AtConfirm i s) w (junk ++ ins)
             = run restock_step (AtConfirm i s) w' ins
    /\ shoe_list w' = shoe_list w /\ inventory_file w' = inventory_file w.
Proof.
  induction junk as [|x junk IH]; intros w ins H.
  - now exists w.
  - inversion H as [|? ? [Hy Hn] H']; subst. cbn [app run restock_step].
    unfold says_yes in Hy. unfold says_no in Hn. rewrite Hy, Hn.
    destruct (IH (print [YesNoInvalid; ask_confirm s] w) ins H') as [w' [E [E1 E2]]].
    exists w'. now rewrite E.
Qed.




(** ** Search *)

Lemma find_code_spec (l : list Shoe) (key : text) :
  match find_code l key with
  | Some s =>
      exists i, l !! i = Some s /\ code s = key
        /\ forall j t, (j < i)%nat -> l !! j = Some t -> code t <> key
  | None => forall t, In t l -> code t <> key
  end.
Proof.
  unfold find_code. induction l as [|a l IH]; simpl.
  - intros t [].
  - destruct (text_eqb (code a) key) eqn:E.
    + apply text_eqb_true in E. exists 0%nat. split; [reflexivity|].
      split; [exact E|]. intros j t Hj. lia.
    + apply text_eqb_false in E.
      destruct (find (fun shoe => text_eqb (code shoe) key) l) as [s|].
      * destruct IH as [i [Hi [Hc Hf]]]. exists (S i). split; [exact Hi|].
        split; [exact Hc|]. intros [|j] t Hj Ht.
        -- simpl in Ht. now inversion Ht; subst.
        -- apply (Hf j t); [lia | exact Ht].
      * intros t [<-|Ht]; [exact E | now apply IH].
Qed.

(** C6, as the code has it.  On a collection that is not empty, search
    strips the white space around the typed query, uppercases it, and
    shows the first record, in the order of the collection, whose stored
    code is equal to that key, or reports that the key was not found when
    no stored code is equal to it.  On an empty collection it reports the
    empty inventory and reads no query.  In no case does it change the
    collection or the file. *)
Theorem C6_search_by_stripped_uppercased_key (w : world) (line : text) (rest : list text) :
  (shoe_list w = [] ->
     search_shoe w (line :: rest) = Returned (print [SearchEmpty] w) (line :: rest))
  /\ (shoe_list w <> [] ->
      let key := upper (strip line) in
      exists o,
        search_shoe w (line :: rest)
        = Returned (mkWorld (shoe_list w) (inventory_file w)
                      (stdout w ++ [Ask EnterSearchCode; o])) rest
        /\ ((exists i s, o = ShoeFound s
               /\ shoe_list w !! i = Some s /\ code s = key
               /\ forall j t, (j < i)%nat -> shoe_list w !! j = Some t ->
                    code t <> key)
            \/ (o = ShoeNotFound key
                /\ forall t, In t (shoe_list w) -> code t <> key))).
Proof.
  split.
  - unfold search_shoe. intros ->. reflexivity.
  - intros Hne key. unfold search_shoe.
    destruct (shoe_list w) as [|a l] eqn:E; [congruence|].
    cbn [is_empty_list]. unfold search_for. fold key. cbn [shoe_list print].
    rewrite E. pose proof (find_code_spec (a :: l) key) as H.
    destruct (find_code (a :: l) key) as [s|].
    + exists (ShoeFound s). split.
      * unfold print. simpl. rewrite E, <- app_assoc. reflexivity.
      * left. destruct H as [i H]. now exists i, s.
    + exists (ShoeNotFound key). split.
      * unfold print. simpl. rewrite E, <- app_assoc. reflexivity.
      * right. split; [reflexivity | exact H].
Qed.

Lemma C6_search_by_stripped_uppercased_key_witness :
  search_shoe (mkWorld stock_5_2_2_9 None []) [txt " b2 "; txt "next"]
  = Returned (mkWorld stock_5_2_2_9 None
                [Ask EnterSearchCode;
                 ShoeFound (mkShoe (txt "UK") (txt "B2") (txt "Shoe") float_zero 2)])
      [txt "next"].
Proof.
  destruct (proj2 (C6_search_by_stripped_uppercased_key
                     (mkWorld stock_5_2_2_9 None []) (txt " b2 ") [txt "next"]))
    as [o [E _]].
  - discriminate.
  - rewrite E. vm_compute in E. injection E as <-. reflexivity.
Defined.

(** C6 as stated fails: the stored code [" ABC"], loaded from the file
    line [ZA, ABC,Boot,1,2], is exactly equal to the uppercased query
    [" abc"], and the search reports that [ABC] was not found. *)
Lemma C6_counterexample :
  let w := read_shoes_data (mkWorld [] (Some spaced_code_file) []) in
  let query := txt " abc" in
  shoe_list w = [spaced_code_shoe]
  /\ code spaced_code_shoe = upper query
  /\ search_shoe w [query]
     = Returned (print [Ask EnterSearchCode; ShoeNotFound (txt "ABC")] w) [].
Proof. vm_compute. repeat split. Qed.

(** ** Capture *)

Lemma code_exists_true (l : list Shoe) (c : text) :
  code_exists l c = true <-> exists s, In s l /\ code s = c.
Proof.
  unfold code_exists. rewrite existsb_exists.
  split; intros [s [Hs E]]; exists s; split; trivial; now apply text_eqb_true.
Qed.

(** C2, as the code has it.  While capture asks for the code, a typed
    line that, once stripped of surrounding white space and uppercased,
    is equal to the code of a record of the collection is refused: a
    notice is printed, the code is asked again, and neither the
    collection nor the file changes. *)
Theorem C2_capture_rejects_duplicate (w : world) (co line : text) :
  (exists s, In s (shoe_list w) /\ code s = upper (strip line)) ->
  exists notice w',
    capture_step (AtCode co) w line = (Some (AtCode co), w')
    /\ shoe_list w' = shoe_list w
    /\ inventory_file w' = inventory_file w
    /\ stdout w' = stdout w ++ [notice; Ask EnterCode]
    /\ (notice = CodeExists (upper (strip line))
        \/ (notice = CodeEmpty /\ upper (strip line) = []))
    /\ forall ins,
         run capture_step (AtCode co) w (line :: ins)
         = run capture_step (AtCode co) w' ins.
Proof.
  intros H. apply code_exists_true in H.
  assert (S : forall notice,
            capture_step (AtCode co) w line
            = (Some (AtCode co), print [notice; Ask EnterCode] w) ->
            forall ins,
              run capture_step (AtCode co) w (line :: ins)
              = run capture_step (AtCode co) (print [notice; Ask EnterCode] w) ins).
  { intros notice E ins. cbn [run]. now rewrite E. }
  destruct (upper (strip line)) as [|c k] eqn:E.
  - exists CodeEmpty, (print [CodeEmpty; Ask EnterCode] w).
    assert (St : capture_step (AtCode co) w line
                 = (Some (AtCode co), print [CodeEmpty; Ask EnterCode] w))
      by (cbn [capture_step]; now rewrite E).
    repeat split; auto.
  - exists (CodeExists (c :: k)), (print [CodeExists (c :: k); Ask EnterCode] w).
    assert (St : capture_step (AtCode co) w line
                 = (Some (AtCode co), print [CodeExists (c :: k); Ask EnterCode] w))
      by (cbn [capture_step]; rewrite E; cbn [is_empty]; now rewrite H).
    repeat split; auto.
Qed.

Lemma C2_capture_rejects_duplicate_witness :
  capture_step (AtCode (txt "UK")) (mkWorld stock_5_2_2_9 None []) (txt " b2 ")
  = (Some (AtCode (txt "UK")),
     mkWorld stock_5_2_2_9 None [CodeExists (txt "B2"); Ask EnterCode]).
Proof.
  destruct (C2_capture_rejects_duplicate (mkWorld stock_5_2_2_9 None [])
              (txt "UK") (txt " b2 ")) as [notice [w' [E _]]].
  - exists (mkShoe (txt "UK") (txt "B2") (txt "Shoe") float_zero 2).
    split; [right; left; reflexivity | reflexivity].
  - rewrite E. vm_compute in E. injection E as <-. reflexivity.
Defined.

(** C2 as stated fails: the typed code [" abc"], uppercased, is equal to
    the stored code [" ABC"], yet capture accepts it (as [ABC]) and goes
    on to append a record and rewrite the file. *)
Lemma C2_counterexample :
  let w := read_shoes_data (mkWorld [] (Some spaced_code_file) []) in
  let entered := txt " abc" in
  shoe_list w = [spaced_code_shoe]
  /\ code spaced_code_shoe = upper entered
  /\ (capture_step (AtCode (txt "UK")) w entered).1
     = Some (AtProduct (txt "UK") (txt "ABC"))
  /\ exists w',
       capture_shoes w [txt "UK"; entered; txt "Clog"; txt "7"; txt "3"]
       = Returned w' []
       /\ shoe_list w'
          = [spaced_code_shoe;
             mkShoe (txt "UK") (txt "ABC") (txt "Clog") (round_decimal false 7 0) 3]
       /\ inventory_file w' <> inventory_file w.
Proof.
  vm_compute. repeat split. eexists. repeat split. discriminate.
Qed.

(** ** Non-negative costs and quantities *)







(** ** Saving, then loading *)


















(** ** The collections the program builds *)

Lemma lines_shape content : forall line,
  In line (lines content) ->
  exists body, has_char newline body = false
               /\ (line = body ++ [newline] \/ line = body).
Proof.
  induction content as [|c s IH]; intros line H; [destruct H|].
  simpl in H. destruct (is_char newline c) eqn:E.
  - destruct H as [<-|H]; [|now apply IH].
    apply is_char_true in E. subst c. exists []. split; [reflexivity | now left].
  - destruct (lines s) as [|l ls] eqn:L.
    + destruct H as [<-|[]]. exists [c]. split; [|now right].
      simpl. now rewrite E.
    + destruct H as [<-|H]; [|apply IH; now right].
      destruct (IH l (or_introl eq_refl)) as [body [Hb Hl]].
      exists (c :: body). split; [simpl; now rewrite E, Hb|].
      destruct Hl as [->| ->]; [now left | now right].
Qed.

Lemma lstrip_with_snoc sp s c :
  sp c = true ->
  lstrip_with sp (s ++ [c])
  = match lstrip_with sp s with [] => [] | t => t ++ [c] end.
Proof.
  intros H. induction s as [|a s IH]; simpl; [now rewrite H|].
  destruct (sp a); [exact IH | reflexivity].
Qed.

Lemma strip_with_snoc sp s c :
  sp c = true -> strip_with sp (s ++ [c]) = strip_with sp s.
Proof.
  intros H. unfold strip_with. rewrite (lstrip_with_snoc sp s c H).
  destruct (lstrip_with sp s) as [|a t]; [reflexivity|].
  now apply (rstrip_with_space sp (a :: t) c).
Qed.

Lemma strip_with_sub sp a s :
  has_char a s = false -> has_char a (strip_with sp s) = false.
Proof.
  intros H. destruct (strip_with_split sp s) as [l [r [E _]]].
  rewrite E, !has_char_app in H.
  apply orb_false_iff in H as [_ H]. now apply orb_false_iff in H as [H _].
Qed.

Lemma split_fields_sub sep a s : forall f,
  In f (split sep s) -> has_char a s = false -> has_char a f = false.
Proof.
  induction s as [|c s IH]; intros f H Hs; simpl in H.
  - now destruct H as [<-|[]].
  - rewrite has_char_cons in Hs. apply orb_false_iff in Hs as [Hc Hs].
    destruct (is_char sep c).
    + destruct H as [<-|H]; [reflexivity | now apply IH].
    + destruct (split sep s) as [|g gs]; destruct H as [<-|H];
        try (rewrite has_char_cons, Hc; simpl);
        try (apply IH; simpl; auto); try reflexivity; try contradiction.
Qed.

Lemma split_fields_without sep s : forall f,
  In f (split sep s) -> has_char sep f = false.
Proof.
  induction s as [|c s IH]; intros f H; simpl in H.
  - now destruct H as [<-|[]].
  - destruct (is_char sep c) eqn:E.
    + destruct H as [<-|H]; [reflexivity | now apply IH].
    + destruct (split sep s) as [|g gs]; destruct H as [<-|H];
        try (rewrite has_char_cons, E; simpl);
        try (apply IH; simpl; auto); try reflexivity; try contradiction.
Qed.

Lemma lstrip_with_starts_clean s : starts_clean (lstrip_with isspace s) = true.
Proof.
  induction s as [|c s IH]; simpl; [reflexivity|].
  destruct (isspace c) eqn:E; [exact IH | simpl; now rewrite E].
Qed.

Lemma strip_starts_clean s : starts_clean (strip s) = true.
Proof.
  unfold strip, strip_with.
  pose proof (lstrip_with_starts_clean s) as H.
  destruct (rstrip_with_split isspace (lstrip_with isspace s)) as [ws [E _]].
  destruct (rstrip_with isspace (lstrip_with isspace s)) as [|c t]; [reflexivity|].
  rewrite E in H. exact H.
Qed.

Lemma split_head_clean sep s f fs :
  split sep s = f :: fs -> starts_clean s = true -> starts_clean f = true.
Proof.
  destruct s as [|c s]; simpl.
  - now intros [= <- <-].
  - destruct (is_char sep c); [now intros [= <- <-]|].
    destruct (split sep s); now intros [= <- <-].
Qed.

Lemma strip_line_without_newline content line :
  In line (lines content) -> has_char newline (strip line) = false.
Proof.
  intros H. destruct (lines_shape content line H) as [body [Hb [->| ->]]].
  - unfold strip. rewrite strip_with_snoc by reflexivity.
    now apply strip_with_sub.
  - now apply strip_with_sub.
Qed.

Lemma loaded_one_line (w : world) :
  Forall (fun s => comma_free s /\ one_line s) (shoe_list (read_shoes_data w)).
Proof.
  rewrite read_shoes_data_records. apply List.Forall_forall. intros s Hs.
  apply list_elem_of_In, list_elem_of_omap in Hs as [line [Hl Hr]].
  apply list_elem_of_In in Hl.
  assert (N : has_char newline (strip line) = false).
  { unfold data_lines in Hl. destruct (inventory_file w) as [content|]; [|destruct Hl].
    apply (strip_line_without_newline content).
    destruct (lines content); [destruct Hl | now right]. }
  assert (H5 : exists t, line_record line = Some t) by now exists s.
  apply line_record_five in H5. rewrite <- split_strip_length in H5.
  destruct (split comma (strip line)) as [|co [|cd [|pr [|cs [|qt [|y l]]]]]] eqn:S;
    try discriminate H5.
  destruct (line_effect_five line co cd pr cs qt S) as [R _].
  rewrite R in Hr. injection Hr as <-.
  assert (C : forall f, In f [co; cd; pr; cs; qt] -> has_char comma f = false).
  { rewrite <- S. apply split_fields_without. }
  assert (L : forall f, In f [co; cd; pr; cs; qt] -> has_char newline f = false).
  { rewrite <- S. intros f Hf. now apply (split_fields_sub comma newline (strip line)). }
  unfold comma_free, one_line. simpl.
  repeat split; try (apply C; simpl; tauto); try (apply L; simpl; tauto).
  apply (split_head_clean comma (strip line) co _ S), strip_starts_clean.
Qed.

Lemma upper_without_newline s :
  has_char newline s = false -> has_char newline (upper s) = false.
Proof.
  induction s as [|c s IH]; [reflexivity|].
  unfold upper. simpl. fold (upper s).
  intros H. apply orb_false_iff in H as [Hc Hs].
  rewrite (IH Hs), orb_false_r. unfold upper_char.
  destruct ((97 <=? code_of c) && (code_of c <=? 122)) eqn:E; [|exact Hc].
  apply andb_true_iff in E as [E1%Z.leb_le E2%Z.leb_le].
  unfold is_char, code_of. rewrite N_ascii_embedding by (unfold code_of in *; lia).
  apply Z.eqb_neq. unfold code_of in *. simpl. lia.
Qed.

Lemma capture_step_one_line ph w x :
  has_char newline x = false ->
  phase_one_line ph ->
  Forall one_line (shoe_list w) ->
  match capture_step ph w x with
  | (Some ph', w') => phase_one_line ph' /\ Forall one_line (shoe_list w')
  | (None, w') => Forall one_line (shoe_list w')
  end.
Proof.
  intros Hx Hph Hw.
  pose proof (strip_with_sub isspace newline x Hx) as Hs. fold (strip x) in Hs.
  pose proof (strip_starts_clean x) as Hc.
  destruct ph as [|co|co cd|co cd pr|co cd pr c]; cbn [capture_step].
  - destruct (is_empty (strip x)); simpl; auto.
  - destruct (is_empty (upper (strip x))); [simpl; auto|].
    destruct (code_exists (shoe_list w) (upper (strip x))); simpl; auto.
    destruct Hph as [H1 H2]. repeat split; trivial.
    now apply upper_without_newline.
  - destruct (is_empty (strip x)); simpl; auto.
    destruct Hph as [H1 [H2 H3]]. repeat split; trivial.
  - destruct (py_float (strip x)) as [c|]; [|simpl; auto].
    destruct (float_ge0 c); simpl; auto.
  - destruct (py_int (strip x)) as [q|]; [|simpl; auto].
    destruct (0 <=? q); [|simpl; auto]. simpl.
    apply Forall_app. split; [exact Hw|]. constructor; [|constructor].
    destruct Hph as [H1 [H2 [H3 H4]]]. unfold one_line. simpl. auto.
Qed.






(** * Further properties *)

(** ** Capture *)

Lemma is_empty_false (t : text) : is_empty t = false <-> t <> [].
Proof. destruct t; simpl; split; congruence. Qed.

Lemma code_exists_false (l : list Shoe) (c : text) :
  code_exists l c = false -> forall t, In t l -> code t <> c.
Proof.
  intros H t Ht E. assert (X : code_exists l c = true)
    by (apply code_exists_true; now exists t).
  congruence.
Qed.

Lemma capture_step_fields l typed ph w x :
  In x typed -> shoe_list w = l -> phase_fields l typed ph ->
  match capture_step ph w x with
  | (Some ph', w') =>
      phase_fields l typed ph' /\ shoe_list w' = l
      /\ inventory_file w' = inventory_file w
  | (None, w') =>
      exists s, shoe_list w' = l ++ [s] /\ captured l typed s
        /\ inventory_file w' = Some (file_text (shoe_list w'))
  end.
Proof.
  intros Hx Hl Hph.
  assert (T : forall t, t = strip x -> t <> [] -> typed_text typed t).
  { intros t -> Ht. split; [exact Ht | now exists x]. }
  destruct ph as [|co|co cd|co cd pr|co cd pr c]; cbn [capture_step].
  - destruct (is_empty (strip x)) eqn:E; simpl; [auto|].
    apply is_empty_false in E. auto.
  - destruct (is_empty (upper (strip x))) eqn:E; [simpl; auto|].
    apply is_empty_false in E. rewrite Hl.
    destruct (code_exists l (upper (strip x))) eqn:C; simpl; [auto|].
    split; [|auto]. split; [exact Hph|].
    split; [exact E|]. split; [now exists x | now apply code_exists_false].
  - destruct (is_empty (strip x)) eqn:E; simpl; [auto|].
    apply is_empty_false in E. destruct Hph as [H1 H2]. auto.
  - destruct (py_float (strip x)) as [c|] eqn:P; [|simpl; auto].
    destruct (float_ge0 c) eqn:E; simpl; [|auto].
    destruct Hph as [H1 [H2 H3]]. split; [|auto].
    split; [exact H1|]. split; [exact H2|]. split; [exact H3|].
    split; [exact E | now exists x].
  - destruct (py_int (strip x)) as [q|] eqn:P; [|simpl; auto].
    destruct (0 <=? q) eqn:E; [|simpl; auto].
    apply Z.leb_le in E. simpl. rewrite Hl.
    exists (mkShoe co cd pr c q). destruct Hph as [H1 [H2 [H3 H4]]].
    split; [reflexivity|]. split; [|reflexivity].
    unfold captured. simpl.
    split; [exact H1|]. split; [exact H2|]. split; [exact H3|].
    split; [exact H4|]. split; [exact E | now exists x].
Qed.

Lemma capture_run_fields l typed ins : forall ph w,
  (forall x, In x ins -> In x typed) ->
  shoe_list w = l -> phase_fields l typed ph ->
  match run capture_step ph w ins with
  | Returned w' _ =>
      exists s, shoe_list w' = l ++ [s] /\ captured l typed s
        /\ inventory_file w' = Some (file_text (shoe_list w'))
  | EndOfInput w' => shoe_list w' = l /\ inventory_file w' = inventory_file w
  end.
Proof.
  induction ins as [|x ins IH]; intros ph w Hin Hl Hph; cbn [run]; [auto|].
  pose proof (capture_step_fields l typed ph w x (Hin x (or_introl eq_refl)) Hl Hph) as S.
  destruct (capture_step ph w x) as [[ph'|] w1]; [|exact S].
  destruct S as [Hph' [Hl' F]].
  specialize (IH ph' w1 (fun y Hy => Hin y (or_intror Hy)) Hl' Hph').
  destruct (run capture_step ph' w1 ins); [exact IH|].
  destruct IH as [? ?]. split; congruence.
Qed.

Lemma capture_shoes_fields w ins :
  match capture_shoes w ins with
  | Returned w' _ =>
      exists s, shoe_list w' = shoe_list w ++ [s]
        /\ captured (shoe_list w) ins s
        /\ inventory_file w' = Some (file_text (shoe_list w'))
  | EndOfInput w' =>
      shoe_list w' = shoe_list w /\ inventory_file w' = inventory_file w
  end.
Proof.
  unfold capture_shoes.
  exact (capture_run_fields (shoe_list w) ins ins AtCountry
           (print [CaptureBanner; Ask EnterCountry] w)
           (fun x H => H) eq_refl I).
Qed.

(** X1. When capture returns, the collection has exactly one more
    record, at its end, and the file holds the new collection.  The new
    record is made of typed lines: its country and product are stripped
    lines, not empty; its code is a stripped and uppercased line, not
    empty and different from every code the collection had; its cost and
    quantity are what [float] and [int] read from stripped lines, and are
    not negative. *)
Theorem X1_capture_appends_typed_record (w w' : world) (ins rest : list text) :
  capture_shoes w ins = Returned w' rest ->
  exists s,
    shoe_list w' = shoe_list w ++ [s]
    /\ captured (shoe_list w) ins s
    /\ inventory_file w' = Some (file_text (shoe_list w')).
Proof.
  intros R. pose proof (capture_shoes_fields w ins) as H.
  now rewrite R in H.
Qed.

Lemma X1_capture_appends_typed_record_witness :
  exists w' s,
    capture_example = Returned w' [txt "next"]
    /\ shoe_list w' = stock_5_2_2_9 ++ [s]
    /\ code s = txt "D4"
    /\ captured stock_5_2_2_9
         [txt " NL "; txt "b2"; txt " d4 "; txt ""; txt "Clog"; txt "-1";
          txt "12.5"; txt "six"; txt "6"; txt "next"] s.
Proof.
  let r := eval vm_compute in capture_example in
  match r with
  | Returned ?w' ?rest =>
      assert (R : capture_example = Returned w' rest) by (vm_compute; reflexivity);
      destruct (X1_capture_appends_typed_record _ w' _ rest R) as [s [E [C _]]];
      exists w', s; split; [exact R|]; split; [exact E|]; split; [|exact C];
      assert (Hs : last (shoe_list w') = Some s) by (rewrite E; apply last_snoc);
      vm_compute in Hs; injection Hs as <-; reflexivity
  end.
Defined.

(** X2. Capture keeps the codes of the collection distinct: if no two
    records had the same code before, none have after. *)
Theorem X2_capture_keeps_codes_distinct (w w' : world) (ins rest : list text) :
  NoDup (codes (shoe_list w)) ->
  capture_shoes w ins = Returned w' rest ->
  NoDup (codes (shoe_list w')).
Proof.
  intros N R. pose proof (capture_shoes_fields w ins) as H. rewrite R in H.
  destruct H as [s [E [[_ [[_ [_ Hnew]] _]] _]]].
  rewrite E. unfold codes. rewrite map_app. simpl.
  apply NoDup_app. split; [exact N|]. split; [|apply NoDup_singleton].
  intros c Hc Hs. apply list_elem_of_In in Hc. apply in_map_iff in Hc as [t [<- Ht]].
  apply list_elem_of_In in Hs. destruct Hs as [Hs|[]]. now apply (Hnew t Ht).
Qed.

Lemma X2_capture_keeps_codes_distinct_witness :
  NoDup (codes (shoe_list (final_world capture_example))).
Proof.
  let r := eval vm_compute in capture_example in
  match r with
  | Returned ?w' ?rest =>
      assert (R : capture_example = Returned w' rest) by (vm_compute; reflexivity);
      rewrite R;
      refine (X2_capture_keeps_codes_distinct _ w' _ rest _ R)
  end.
  vm_compute.
  repeat (constructor;
          [rewrite list_elem_of_In; intros H;
           repeat (destruct H as [H|H]; [discriminate H|]); exact H|]).
  constructor.
Defined.

(** X3. When the typed lines run out before capture is done, the
    collection and the file are as they were: no partial record is ever
    appended or written. *)
Theorem X3_capture_out_of_input (w w' : world) (ins : list text) :
  capture_shoes w ins = EndOfInput w' ->
  shoe_list w' = shoe_list w /\ inventory_file w' = inventory_file w.
Proof.
  intros R. pose proof (capture_shoes_fields w ins) as H.
  now rewrite R in H.
Qed.

Lemma X3_capture_out_of_input_witness :
  exists w',
    capture_shoes (mkWorld stock_5_2_2_9 None []) [txt "NL"; txt "d4"; txt "Clog"; txt "12.5"]
    = EndOfInput w'
    /\ shoe_list w' = stock_5_2_2_9 /\ inventory_file w' = None.
Proof.
  eexists. split; [vm_compute; reflexivity|].
  apply (X3_capture_out_of_input (mkWorld stock_5_2_2_9 None []) _
           [txt "NL"; txt "d4"; txt "Clog"; txt "12.5"]).
  vm_compute. reflexivity.
Defined.

(** ** Capture, then search *)

Lemma code_of_ascii (n : Z) : 0 <= n < 256 -> code_of (ascii_of_N (Z.to_N n)) = n.
Proof. intros H. unfold code_of. rewrite N_ascii_embedding; lia. Qed.

Lemma upper_char_out c :
  (97 <=? code_of c) && (code_of c <=? 122) = false -> upper_char c = c.
Proof. intros H. unfold upper_char. now rewrite H. Qed.

Lemma upper_char_upper_char c : upper_char (upper_char c) = upper_char c.
Proof.
  destruct ((97 <=? code_of c) && (code_of c <=? 122)) eqn:E.
  - apply upper_char_out. unfold upper_char. rewrite E.
    apply andb_true_iff in E as [E1%Z.leb_le E2%Z.leb_le].
    rewrite code_of_ascii by lia.
    apply andb_false_iff. left. apply Z.leb_gt. lia.
  - now rewrite !(upper_char_out c E).
Qed.

Lemma isspace_upper_char c : isspace (upper_char c) = isspace c.
Proof.
  unfold upper_char.
  destruct ((97 <=? code_of c) && (code_of c <=? 122)) eqn:E; [|reflexivity].
  apply andb_true_iff in E as [E1%Z.leb_le E2%Z.leb_le].
  unfold isspace. rewrite code_of_ascii by lia.
  replace (code_of c - 32 <=? 13) with false by (symmetry; apply Z.leb_gt; lia).
  replace (code_of c - 32 <=? 32) with false by (symmetry; apply Z.leb_gt; lia).
  replace (code_of c <=? 13) with false by (symmetry; apply Z.leb_gt; lia).
  replace (code_of c <=? 32) with false by (symmetry; apply Z.leb_gt; lia).
  now rewrite !andb_false_r.
Qed.

Lemma upper_upper s : upper (upper s) = upper s.
Proof.
  unfold upper. rewrite map_map. apply map_ext. intros c. apply upper_char_upper_char.
Qed.

Lemma lstrip_upper s : lstrip_with isspace (upper s) = upper (lstrip_with isspace s).
Proof.
  induction s as [|c s IH]; [reflexivity|].
  simpl. rewrite isspace_upper_char. now destruct (isspace c).
Qed.

Lemma strip_upper s : strip (upper s) = upper (strip s).
Proof.
  unfold strip, strip_with, rstrip_with, upper.
  fold (upper s). rewrite lstrip_upper. unfold upper.
  rewrite <- map_rev. fold (upper (rev (lstrip_with isspace s))).
  rewrite lstrip_upper. unfold upper. now rewrite map_rev.
Qed.

Lemma lstrip_with_starts_clean_id s :
  starts_clean s = true -> lstrip_with isspace s = s.
Proof.
  destruct s as [|c s]; simpl; [reflexivity|].
  intros H. apply negb_true_iff in H. now rewrite H.
Qed.

Lemma rstrip_rstrip s :
  rstrip_with isspace (rstrip_with isspace s) = rstrip_with isspace s.
Proof.
  unfold rstrip_with. rewrite rev_involutive.
  now rewrite (lstrip_with_starts_clean_id _ (lstrip_with_starts_clean (rev s))).
Qed.

(** Stripping twice is stripping once. *)
Lemma strip_strip s : strip (strip s) = strip s.
Proof.
  pose proof (strip_starts_clean s) as H.
  unfold strip, strip_with in *.
  rewrite (lstrip_with_starts_clean_id _ H). apply rstrip_rstrip.
Qed.

Lemma typed_code_normal l typed c :
  typed_code l typed c -> upper (strip c) = c.
Proof.
  intros [_ [[x [_ ->]] _]].
  now rewrite strip_upper, strip_strip, upper_upper.
Qed.

Lemma find_code_last l s :
  (forall t, In t l -> code t <> code s) ->
  find_code (l ++ [s]) (code s) = Some s.
Proof.
  unfold find_code. induction l as [|a l IH]; intros H; simpl.
  - replace (text_eqb (code s) (code s)) with true
      by (symmetry; now apply text_eqb_true).
    reflexivity.
  - replace (text_eqb (code a) (code s)) with false
      by (symmetry; apply text_eqb_false, H; now left).
    apply IH. intros t Ht. apply H. now right.
Qed.

(** X4. A shoe that capture has added is found by a search for its
    code: the code that capture stores is its own search key, and a
    search for any query with that key (the code typed again in any case,
    with any white space around it) shows the new record. *)
Theorem X4_capture_then_search (w w' : world) (ins rest : list text) :
  capture_shoes w ins = Returned w' rest ->
  exists s,
    shoe_list w' = shoe_list w ++ [s]
    /\ upper (strip (code s)) = code s
    /\ forall query unread,
         upper (strip query) = code s ->
         search_shoe w' (query :: unread)
         = Returned (print [ShoeFound s] (print [Ask EnterSearchCode] w')) unread.
Proof.
  intros R. pose proof (capture_shoes_fields w ins) as H. rewrite R in H.
  destruct H as [s [E [[_ [C _]] _]]].
  exists s. split; [exact E|]. split; [exact (typed_code_normal _ _ _ C)|].
  intros query unread K. unfold search_shoe.
  assert (NE : is_empty_list (shoe_list w') = false)
    by (rewrite E; now destruct (shoe_list w)).
  rewrite NE. unfold search_for.
  replace (find_code (shoe_list (print [Ask EnterSearchCode] w')) (upper (strip query)))
    with (Some s); [reflexivity|].
  cbn [shoe_list print]. rewrite K, E. symmetry. apply find_code_last.
  now destruct C as [_ [_ N]].
Qed.

Lemma X4_capture_then_search_witness :
  exists w' s,
    capture_example = Returned w' [txt "next"]
    /\ code s = txt "D4"
    /\ search_shoe w' [txt " d4"]
       = Returned (print [ShoeFound s] (print [Ask EnterSearchCode] w')) [].
Proof.
  let r := eval vm_compute in capture_example in
  match r with
  | Returned ?w' ?rest =>
      assert (R : capture_example = Returned w' rest) by (vm_compute; reflexivity);
      destruct (X4_capture_then_search _ w' _ rest R) as [s [E [_ F]]];
      assert (Hs : last (shoe_list w') = Some s) by (rewrite E; apply last_snoc);
      vm_compute in Hs; injection Hs as <-;
      match type of F with
      | context [ShoeFound ?s0] =>
          exists w', s0; split; [exact R|]; split; [reflexivity|];
          apply F; vm_compute; reflexivity
      end
  end.
Defined.

(** ** Restock *)




(** X6. Restock on an empty collection reads nothing and changes
    nothing.  On a collection that is not empty, an answer of no (after
    any number of answers that are neither yes nor no) ends restock with
    the collection and the file as they were, and no amount is asked. *)
Theorem X6_restock_declined (w : world) :
  (shoe_list w = [] ->
     forall ins, re_stock w ins = Returned (print [RestockEmpty] w) ins)
  /\ (shoe_list w <> [] ->
      forall junk answer rest,
        Forall no_answer junk -> says_no answer = true ->
        exists w',
          re_stock w (junk ++ answer :: rest) = Returned w' rest
          /\ shoe_list w' = shoe_list w
          /\ inventory_file w' = inventory_file w
          /\ last (stdout w') = Some NoChanges).
Proof.
  split.
  - intros E ins. unfold re_stock, restock_begin. now rewrite E.
  - intros Hne junk answer rest J N.
    destruct (min_shoe_spec (shoe_list w) Hne) as [i [s [M _]]].
    unfold re_stock, restock_begin. rewrite M.
    destruct (run_confirm_again i s junk (print [LowestStock s; ask_confirm s] w)
                (answer :: rest) J) as [w1 [E1 [S1 F1]]].
    rewrite E1. cbn [run restock_step]. unfold says_no in N. rewrite N.
    destruct (one_of (lower (strip answer)) ["yes"; "y"]%string) eqn:Y.
    + exfalso. unfold one_of in *. simpl in Y, N.
      rewrite !orb_false_r in *.
      apply orb_true_iff in Y, N.
      destruct Y as [Y|Y], N as [N|N];
        apply text_eqb_true in Y, N; rewrite Y in N; discriminate N.
    + exists (print [NoChanges] w1). split; [reflexivity|].
      simpl. split; [exact S1|]. split; [exact F1|]. apply last_snoc.
Qed.

Lemma X6_restock_declined_witness :
  exists w',
    re_stock (mkWorld stock_5_2_2_9 None []) [txt "perhaps"; txt " N "; txt "3"]
    = Returned w' [txt "3"]
    /\ shoe_list w' = stock_5_2_2_9 /\ inventory_file w' = None.
Proof.
  destruct (proj2 (X6_restock_declined (mkWorld stock_5_2_2_9 None [])))
    with (junk := [txt "perhaps"]) (answer := txt " N ") (rest := [txt "3"])
    as [w' [R [S [F _]]]].
  - discriminate.
  - repeat constructor.
  - reflexivity.
  - exists w'. auto.
Defined.

(** ** Loading *)

Lemma five_fields_record line :
  five_fields line = true <-> exists s, line_record line = Some s.
Proof.
  unfold five_fields. rewrite Nat.eqb_eq. apply line_record_five.
Qed.

Lemma line_effect_by_fields line :
  if five_fields line
  then (exists s, line_record line = Some s)
       /\ List.filter is_skipping (line_output line) = []
  else line_record line = None
       /\ line_output line = [SkippingMalformed (strip line)].
Proof.
  destruct (five_fields line) eqn:E.
  - split; [now apply five_fields_record|].
    unfold five_fields in E. apply Nat.eqb_eq in E.
    rewrite <- split_strip_length in E.
    destruct (split comma (strip line)) as [|co [|cd [|pr [|cs [|qt [|y l]]]]]] eqn:S;
      try discriminate E.
    destruct (line_effect_five line co cd pr cs qt S) as [_ O]. rewrite O.
    now destruct (py_float cs), (py_int qt).
  - apply line_record_not_five. unfold five_fields in E. now apply Nat.eqb_neq in E.
Qed.

Lemma load_accounting (data : list text) :
  length (omap line_record data) = length (List.filter five_fields data)
  /\ List.filter is_skipping (concat (map line_output data))
     = map (fun l => SkippingMalformed (strip l))
         (List.filter (fun l => negb (five_fields l)) data).
Proof.
  induction data as [|line data [IH1 IH2]]; [now split|].
  pose proof (line_effect_by_fields line) as H.
  change (omap line_record (line :: data))
    with (match line_record line with
          | Some s => s :: omap line_record data
          | None => omap line_record data
          end).
  cbn [map concat List.filter]. rewrite List.filter_app, IH2.
  destruct (five_fields line); cbn [negb].
  - destruct H as [[s R] O]. rewrite R, O. cbn [length app]. now rewrite IH1.
  - destruct H as [R O]. rewrite R, O. now rewrite IH1.
Qed.

Lemma read_shoes_data_file (w : world) :
  inventory_file (read_shoes_data w)
  = Some (match inventory_file w with Some content => content | None => header_line end).
Proof.
  unfold read_shoes_data, read_try. simpl.
  destruct (inventory_file w) as [content|] eqn:F; [|reflexivity].
  destruct (lines content); simpl; rewrite ?load_lines_effect; simpl; now rewrite F.
Qed.

Lemma read_shoes_data_printed (w : world) :
  exists printed,
    stdout (read_shoes_data w) = stdout w ++ printed
    /\ List.filter is_skipping printed
       = List.filter is_skipping (concat (map line_output (data_lines w))).
Proof.
  unfold data_lines. destruct (inventory_file w) as [content|] eqn:F.
  - destruct (lines content) as [|hdr data] eqn:L.
    + exists [UnexpectedReadError StopIteration].
      unfold read_shoes_data, read_try. simpl. now rewrite F, L.
    + rewrite (read_present w content hdr data F L). simpl.
      eexists. split; [reflexivity|].
      rewrite List.filter_app. simpl. now rewrite app_nil_r.
  - exists [FileWasNotFound; FileCreated].
    unfold read_shoes_data, read_try. simpl. rewrite F. simpl.
    now rewrite <- app_assoc.
Qed.

(** X7. A load accounts for every data line of the file: a line with
    exactly five fields gives one record, any other line gives one notice
    that it was skipped, so the number of records loaded plus the number
    of lines reported as skipped is the number of data lines. *)
Theorem X7_load_accounts_for_every_line (w : world) :
  let w' := read_shoes_data w in
  exists printed,
    stdout w' = stdout w ++ printed
    /\ length (shoe_list w') = length (List.filter five_fields (data_lines w))
    /\ List.filter is_skipping printed
       = map (fun l => SkippingMalformed (strip l))
           (List.filter (fun l => negb (five_fields l)) (data_lines w))
    /\ (length (shoe_list w') + length (List.filter is_skipping printed)
        = length (data_lines w))%nat.
Proof.
  intros w'. subst w'.
  destruct (read_shoes_data_printed w) as [printed [P S]].
  destruct (load_accounting (data_lines w)) as [A1 A2].
  exists printed. rewrite read_shoes_data_records, S, A2, A1, length_map.
  repeat split; trivial. clear.
  induction (data_lines w) as [|l d IH]; [reflexivity|].
  simpl. destruct (five_fields l); simpl; lia.
Qed.

(** X8. Loading twice is loading once: a second load gives the same
    collection, and leaves the file that the first one read or created. *)
Theorem X8_load_twice (w : world) :
  let w1 := read_shoes_data w in
  let w2 := read_shoes_data w1 in
  shoe_list w2 = shoe_list w1 /\ inventory_file w2 = inventory_file w1.
Proof.
  intros w1 w2. subst w1 w2.
  assert (F : inventory_file (read_shoes_data (read_shoes_data w))
              = inventory_file (read_shoes_data w)).
  { rewrite (read_shoes_data_file (read_shoes_data w)).
    now rewrite (read_shoes_data_file w). }
  split; [|exact F].
  rewrite (read_shoes_data_records (read_shoes_data w)).
  rewrite (read_shoes_data_records w). f_equal.
  unfold data_lines. rewrite (read_shoes_data_file w).
  now destruct (inventory_file w).
Qed.

(** ** Saving a record that holds a comma *)








(** ** The model of the reports on sample values *)

Example float_fixed2_samples :
  map (fun s => option_map (fun x => string_of_list_ascii (float_fixed2 x))
                  (py_float (txt s)))
    ["10.5"; "42"; "2.675"; "0.125"; "0.375"; "1e22"; "-0.001"; "0.005";
     "999.995"; "nan"; "-inf"; "0"; "1234567.891"; "1e-7";
     "123456789012345678"; "0.045"; "5e-324"; "-2.5"; "0.995"]%string
  = [Some "10.50"; Some "42.00"; Some "2.67"; Some "0.12"; Some "0.38";
     Some "10000000000000000000000.00"; Some "-0.00"; Some "0.01";
     Some "1000.00"; Some "nan"; Some "-inf"; Some "0.00"; Some "1234567.89";
     Some "0.00"; Some "123456789012345680.00"; Some "0.04"; Some "0.00";
     Some "-2.50"; Some "0.99"]%string.
Proof. vm_compute. reflexivity. Qed.

Example float_times_int_samples :
  (option_map float_repr (float_times_int (round_decimal false 105 (-1)) 4),
   option_map float_repr (float_times_int (round_decimal false 1 (-1)) 3),
   float_times_int float_zero (10 ^ 400),
   option_map float_repr (float_of_int (2 ^ 53 + 1)),
   option_map float_repr (float_of_int (2 ^ 1024 - 2 ^ 970 - 1)),
   float_of_int (2 ^ 1024 - 2 ^ 970))
  = (Some (txt "42.0"), Some (txt "0.30000000000000004"), None,
     Some (txt "9007199254740992.0"), Some (txt "1.7976931348623157e+308"),
     None).
Proof. vm_compute. reflexivity. Qed.

(** ** The report of the largest quantity *)

Lemma max_scan_spec (l : list Shoe) : forall (pre : list Shoe) b sb,
  pre !! b = Some sb ->
  (forall t, In t pre -> quantity t <= quantity sb) ->
  (forall j t, (j < b)%nat -> pre !! j = Some t -> quantity t < quantity sb) ->
  let r := max_scan (b, sb) (length pre) l in
  (pre ++ l) !! r.1 = Some r.2
  /\ (forall t, In t (pre ++ l) -> quantity t <= quantity r.2)
  /\ (forall j t, (j < r.1)%nat -> (pre ++ l) !! j = Some t ->
        quantity t < quantity r.2).
Proof.
  induction l as [|s l IH]; intros pre b sb Hb Hmax Hfirst; simpl.
  - rewrite app_nil_r. auto.
  - assert (Hlt : (b < length pre)%nat) by (eapply lookup_lt_Some; eauto).
    replace (pre ++ s :: l) with ((pre ++ [s]) ++ l) by now rewrite <- app_assoc.
    replace (S (length pre)) with (length (pre ++ [s]))
      by (rewrite length_app; simpl; lia).
    destruct (quantity sb <? quantity s) eqn:E.
    + apply Z.ltb_lt in E. apply IH.
      * rewrite lookup_app_r, Nat.sub_diag by lia. reflexivity.
      * intros t Ht. apply in_app_or in Ht as [Ht|[<-|[]]]; [|lia].
        specialize (Hmax t Ht). lia.
      * intros j t Hj Ht. rewrite lookup_app_l in Ht by lia.
        assert (In t pre) by (apply list_elem_of_In; eapply list_elem_of_lookup_2; eauto).
        specialize (Hmax t H). lia.
    + apply Z.ltb_ge in E. apply IH.
      * rewrite lookup_app_l by lia. exact Hb.
      * intros t Ht. apply in_app_or in Ht as [Ht|[<-|[]]]; [auto|lia].
      * intros j t Hj Ht. rewrite lookup_app_l in Ht by lia. eauto.
Qed.

(** X10. On a collection that is not empty, the report of the highest
    quantity shows the record at the earliest position whose quantity is
    the largest of the collection: no record has a larger quantity and
    every record before it has a smaller one.  On an empty collection it
    prints its notice only. *)
Theorem X10_highest_qty_first_maximum (l : list Shoe) :
  (l = [] -> highest_qty l = [HighestEmpty])
  /\ (l <> [] ->
      exists i s,
        highest_qty l
        = [ForSale s; Recommended (product s) (code s) (quantity s)]
        /\ l !! i = Some s
        /\ (forall t, In t l -> quantity t <= quantity s)
        /\ (forall j t, (j < i)%nat -> l !! j = Some t ->
              quantity t < quantity s)).
Proof.
  split; [now intros ->|].
  destruct l as [|s l]; [congruence|]. intros _.
  pose proof (max_scan_spec l [s] 0%nat s eq_refl) as H. simpl in H.
  unfold highest_qty, max_shoe.
  destruct (max_scan (0%nat, s) 1 l) as [i m] eqn:E.
  exists i, m. split; [reflexivity|]. apply H.
  - intros t [<-|[]]. lia.
  - intros j t Hj. lia.
Qed.

Lemma X10_highest_qty_first_maximum_witness :
  highest_qty stock_5_9_2_9
  = [ForSale (mkShoe (txt "UK") (txt "B2") (txt "Shoe") float_zero 9);
     Recommended (txt "Shoe") (txt "B2") 9].
Proof.
  destruct (proj2 (X10_highest_qty_first_maximum stock_5_9_2_9)) as [i [s [E _]]].
  - discriminate.
  - rewrite E. vm_compute in E. injection E as <-. reflexivity.
Defined.

(** ** Sessions of the menu *)

Lemma capture_step_sync ph w x :
  match capture_step ph w x with
  | (Some _, w') =>
      shoe_list w' = shoe_list w /\ inventory_file w' = inventory_file w
  | (None, w') => inventory_file w' = Some (file_text (shoe_list w'))
  end.
Proof.
  destruct ph as [|co|co cd|co cd pr|co cd pr c]; cbn [capture_step].
  - destruct (is_empty (strip x)); now simpl.
  - destruct (is_empty (upper (strip x))); [now simpl|].
    destruct (code_exists (shoe_list w) (upper (strip x))); now simpl.
  - destruct (is_empty (strip x)); now simpl.
  - destruct (py_float (strip x)) as [c|]; [|now simpl].
    destruct (float_ge0 c); now simpl.
  - destruct (py_int (strip x)) as [q|]; [|now simpl].
    destruct (0 <=? q); now simpl.
Qed.

Lemma restock_step_sync ph w x :
  Forall one_line (shoe_list w) ->
  match restock_step ph w x with
  | (Some _, w') =>
      shoe_list w' = shoe_list w /\ inventory_file w' = inventory_file w
  | (None, w') =>
      Forall one_line (shoe_list w')
      /\ ((shoe_list w' = shoe_list w /\ inventory_file w' = inventory_file w)
          \/ inventory_file w' = Some (file_text (shoe_list w')))
  end.
Proof.
  intros Hl. destruct ph as [i s|i s]; cbn [restock_step].
  - destruct (one_of (lower (strip x)) ["yes"; "y"]%string); [now simpl|].
    destruct (one_of (lower (strip x)) ["no"; "n"]%string); simpl; auto.
  - destruct (py_int (strip x)) as [a|]; [|now simpl].
    destruct (0 <=? a); [|now simpl]. simpl. split; [|now right].
    apply Forall_alter; [exact Hl|]. now intros t _ H.
Qed.

Lemma read_shoes_data_sync (w : world) :
  in_sync (shoe_list (read_shoes_data w)) (inventory_file (read_shoes_data w)).
Proof.
  rewrite read_shoes_data_file, read_shoes_data_records. unfold data_lines.
  eexists. split; [reflexivity|]. left.
  now destruct (inventory_file w).
Qed.

Lemma in_sync_written (l : list Shoe) : in_sync l (Some (file_text l)).
Proof. exists (file_text l). split; [reflexivity | now right]. Qed.

Lemma menu_step_ok tab ph s x :
  has_char newline x = false ->
  session_ok ph s ->
  match menu_step tab ph s x with
  | Continue ph' s' => session_ok ph' s'
  | Exit s' => session_ok AtChoice s'
  | Crash _ s' => session_ok AtChoice s'
  end.
Proof.
  intros Hx [Hs [Hl Hp]].
  assert (K : forall r, session_ok AtPause (report r s)) by (intros r; repeat split; trivial).
  destruct ph as [|cph|rph| |]; cbn [menu_step].
  - destruct (text_eqb (strip x) (txt "1")).
    { unfold after_report. destruct (snd (view_all tab (shoes s))); apply K. }
    destruct (text_eqb (strip x) (txt "2")). { repeat split; trivial. }
    destruct (text_eqb (strip x) (txt "3")).
    { unfold after_step, restock_begin. simpl.
      destruct (min_shoe (shoes s)) as [[i m]|]; repeat split; trivial. }
    destruct (text_eqb (strip x) (txt "4")).
    { destruct (is_empty_list (shoes s)); repeat split; trivial. }
    destruct (text_eqb (strip x) (txt "5")).
    { unfold after_report. destruct (snd (value_per_item tab (shoes s))); apply K. }
    destruct (text_eqb (strip x) (txt "6")). { apply K. }
    destruct (text_eqb (strip x) (txt "7")).
    { split; [apply read_shoes_data_sync|]. split; [|exact I].
      eapply List.Forall_impl; [|apply loaded_one_line]. now intros t [_ H]. }
    destruct (text_eqb (strip x) (txt "0")); apply K.
  - pose proof (capture_step_sync cph (world_of s) x) as S.
    pose proof (capture_step_one_line cph (world_of s) x Hx Hp Hl) as L.
    unfold after_step.
    destruct (capture_step cph (world_of s) x) as [[ph'|] w'].
    + destruct S as [S1 S2], L as [L1 L2]. split; [|split; trivial].
      simpl. now rewrite S1, S2.
    + split; [|split; trivial]. simpl. rewrite S. apply in_sync_written.
  - pose proof (restock_step_sync rph (world_of s) x Hl) as S.
    unfold after_step.
    destruct (restock_step rph (world_of s) x) as [[ph'|] w'].
    + destruct S as [S1 S2]. split; [|split; trivial]; simpl; now rewrite ?S1, ?S2.
    + destruct S as [L [[S1 S2]|S]]; (split; [|split; trivial]); simpl.
      * now rewrite S1, S2.
      * rewrite S. apply in_sync_written.
  - unfold search_for. simpl.
    destruct (find_code (shoes s) (upper (strip x))); repeat split; trivial.
  - repeat split; trivial.
Qed.

Lemma menu_run_ok tab ins : forall ph s,
  Forall (fun x => has_char newline x = false) ins ->
  session_ok ph s ->
  exists ph', session_ok ph' (session_of (menu_run tab ph s ins)).
Proof.
  induction ins as [|x ins IH]; intros ph s Hi Hs; [now exists ph|].
  inversion Hi as [|? ? Hx Hi']; subst. cbn [menu_run].
  pose proof (menu_step_ok tab ph s x Hx Hs) as S.
  destruct (menu_step tab ph s x) as [ph' s'|s'|e s'].
  - now apply IH.
  - now exists AtChoice.
  - now exists AtChoice.
Qed.

Lemma main_menu_ok tab inventory ins :
  Forall (fun x => has_char newline x = false) ins ->
  exists ph, session_ok ph (session_of (main_menu tab inventory ins)).
Proof.
  intros Hi. unfold main_menu. apply menu_run_ok; [exact Hi|].
  split; [apply read_shoes_data_sync|]. split; [|exact I].
  eapply List.Forall_impl; [|apply loaded_one_line]. now intros t [_ H].
Qed.







(** X12. However a session of the menu ends (choice 0, an exception, or
    the end of the typed lines), the file exists and agrees with the
    collection: the collection is what the data lines of the file give,
    or the file is what the save operation writes for the collection.
    The typed lines are lines: none holds a line feed. *)
Theorem X12_session_file_in_sync (tab : tabulate_binding) (inventory : option text)
    (ins : list text) :
  Forall (fun x => has_char newline x = false) ins ->
  let s := session_of (main_menu tab inventory ins) in
  exists content,
    file s = Some content
    /\ (shoes s = omap line_record (tail (lines content))
        \/ content = file_text (shoes s)).
Proof.
  intros Hi s. destruct (main_menu_ok tab inventory ins Hi) as [ph [H _]].
  exact H.
Qed.


Lemma X12_session_file_in_sync_witness :
  exists content,
    file (session_of session_example) = Some content
    /\ (shoes (session_of session_example) = omap line_record (tail (lines content))
        \/ content = file_text (shoes (session_of session_example))).
Proof.
  apply (X12_session_file_in_sync TabulateModule (Some four_field_file) session_lines).
  repeat constructor.
Defined.





Lemma absorb_absorb (s : session) (w w1 : world) :
  absorb (absorb s w) w1 = absorb s (prefixed (stdout w) w1).
Proof. unfold absorb, prefixed. simpl. now rewrite map_app, app_assoc. Qed.

Lemma print_prefixed o p w : print p (prefixed o w) = prefixed o (print p w).
Proof. unfold print, prefixed. simpl. now rewrite app_assoc. Qed.

Lemma capture_step_prefixed ph o w x :
  capture_step ph (prefixed o w) x
  = (fst (capture_step ph w x), prefixed o (snd (capture_step ph w x))).
Proof.
  destruct ph; cbn [capture_step];
    change (shoe_list (prefixed o w)) with (shoe_list w);
    repeat match goal with
           | |- context [if ?b then _ else _] => destruct b
           | |- context [match py_float ?t with _ => _ end] => destruct (py_float t)
           | |- context [match py_int ?t with _ => _ end] => destruct (py_int t)
           | |- context [Shoe_init ?a ?b ?c ?d ?e] =>
               destruct (Shoe_init a b c d e) as [new_shoe printed]
           end;
    cbn [fst snd]; rewrite ?print_prefixed; try reflexivity.
  unfold prefixed, print, write_shoes_data, set_file, set_shoes.
  cbn [shoe_list inventory_file stdout]. now rewrite !app_assoc.
Qed.

Lemma restock_step_prefixed ph o w x :
  restock_step ph (prefixed o w) x
  = (fst (restock_step ph w x), prefixed o (snd (restock_step ph w x))).
Proof.
  destruct ph; cbn [restock_step];
    change (shoe_list (prefixed o w)) with (shoe_list w);
    repeat match goal with
           | |- context [if ?b then _ else _] => destruct b
           | |- context [match py_int ?t with _ => _ end] => destruct (py_int t)
           end;
    cbn [fst snd]; rewrite ?print_prefixed; try reflexivity.
  unfold prefixed, print, write_shoes_data, set_file, set_shoes. simpl.
  now rewrite app_assoc.
Qed.

Lemma search_for_prefixed o w x :
  search_for (prefixed o w) x = prefixed o (search_for w x).
Proof.
  unfold search_for. cbn [prefixed shoe_list].
  destruct (find_code (shoe_list w) (upper (strip x))); now rewrite print_prefixed.
Qed.

Lemma world_of_absorb s w :
  w = prefixed (stdout w) (world_of (absorb s w)).
Proof. destruct w. unfold prefixed, world_of, absorb. simpl. now rewrite app_nil_r. Qed.

Section Inside.
Context {P : Type}.
Variable tab : tabulate_binding.
Variable step : P -> world -> text -> option P * world.
Variable inside : P -> menu_phase.
Hypothesis menu_step_inside : forall ph s x,
  menu_step tab (inside ph) s x = after_step inside s (step ph (world_of s) x).
Hypothesis step_prefixed : forall ph o w x,
  step ph (prefixed o w) x = (fst (step ph w x), prefixed o (snd (step ph w x))).

Lemma menu_run_inside (s : session) : forall ins ph w,
  menu_run tab (inside ph) (absorb s w) ins = resume tab s (run step ph w ins).
Proof.
  induction ins as [|x ins IH]; intros ph w; [reflexivity|].
  cbn [menu_run run]. rewrite menu_step_inside.
  replace (step ph w x)
    with (step ph (prefixed (stdout w) (world_of (absorb s w))) x)
    by (now rewrite <- world_of_absorb).
  rewrite step_prefixed.
  destruct (step ph (world_of (absorb s w)) x) as [[ph'|] w1]; cbn [after_step fst snd].
  - rewrite absorb_absorb. apply IH.
  - unfold pause. rewrite absorb_absorb. reflexivity.
Qed.

End Inside.

(** X15. In the menu, the choices 2, 3 and 4 run the capture, the restock
    and the search on the collection and the file of the session: the
    session goes on as the operation run on its own goes, what the
    operation prints is added to what was printed, the pause follows its
    return, and the end of the typed lines inside it ends the session. *)
Theorem X15_menu_runs_operation (tab : tabulate_binding) (s : session)
    (line : text) (ins : list text) (op : world -> list text -> result) :
  operation (strip line) = Some op ->
  menu_run tab AtChoice s (line :: ins) = resume tab s (op (world_of s) ins).
Proof.
  unfold operation. intros H. cbn [menu_run menu_step].
  destruct (text_eqb (strip line) (txt "2")) eqn:E2.
  { apply text_eqb_true in E2. rewrite E2. injection H as <-.
    replace (text_eqb (txt "2") (txt "1")) with false by reflexivity.
    replace (text_eqb (txt "2") (txt "2")) with true by reflexivity.
    cbv iota. unfold capture_shoes.
    apply (menu_run_inside tab capture_step InCapture);
      [reflexivity | apply capture_step_prefixed]. }
  destruct (text_eqb (strip line) (txt "3")) eqn:E3.
  { apply text_eqb_true in E3. rewrite E3. injection H as <-.
    replace (text_eqb (txt "3") (txt "1")) with false by reflexivity.
    replace (text_eqb (txt "3") (txt "2")) with false by reflexivity.
    replace (text_eqb (txt "3") (txt "3")) with true by reflexivity.
    cbv iota. unfold re_stock.
    destruct (restock_begin (world_of s)) as [[ph|] w']; cbn [after_step].
    - apply (menu_run_inside tab restock_step InRestock);
        [reflexivity | apply restock_step_prefixed].
    - reflexivity. }
  destruct (text_eqb (strip line) (txt "4")) eqn:E4; [|discriminate H].
  apply text_eqb_true in E4. rewrite E4. injection H as <-.
  replace (text_eqb (txt "4") (txt "1")) with false by reflexivity.
  replace (text_eqb (txt "4") (txt "2")) with false by reflexivity.
  replace (text_eqb (txt "4") (txt "3")) with false by reflexivity.
  replace (text_eqb (txt "4") (txt "4")) with true by reflexivity.
  cbv iota. unfold search_shoe. cbn [world_of shoe_list].
  destruct (is_empty_list (shoes s)); [reflexivity|].
  destruct ins as [|x ins]; [reflexivity|].
  cbn [menu_run menu_step resume]. unfold pause. rewrite absorb_absorb.
  rewrite <- search_for_prefixed.
  now rewrite <- (world_of_absorb s (print [Ask EnterSearchCode] (world_of s))).
Qed.

Lemma X15_menu_runs_operation_witness :
  menu_run TabulateModule AtChoice loaded_session
    [txt " 4 "; txt "a1"; txt ""; txt "0"]
  = resume TabulateModule loaded_session
      (search_shoe (world_of loaded_session) [txt "a1"; txt ""; txt "0"]).
Proof.
  apply (X15_menu_runs_operation TabulateModule loaded_session (txt " 4 ")
           [txt "a1"; txt ""; txt "0"] search_shoe).
  reflexivity.
Defined.
